(** * cellSP: the InSTAnT post-processing and imputation glue

    A shallow embedding of [cellSP/characterize/_instant.py] and
    [cellSP/preprocessing/_impute.py].

    Python objects live in a store indexed by locations, so that in-place
    updates of an [AnnData] object and the identity of the returned object
    can be stated.  Exceptions are values of an outcome type.  Everything
    that the two modules import from other packages (InSTAnT, MAGIC, numpy,
    scikit-learn, the sibling module [_bicluster]) is an interface, given as
    a type class whose fields are the functions that are called. *)

From Stdlib Require Import ZArith Lia Bool Ascii String DecimalString.
From Stdlib Require Import Floats.SpecFloat.
From stdpp Require Import base option list strings gmap.

Local Open Scope string_scope.
Local Open Scope list_scope.

(** ** Exceptions and outcomes *)

Inductive exn : Type :=
| ValueError (msg : string)
| KeyError (key : string)
| IndexError
| AssertionError
| TypeError
| FileNotFoundError (path : string)
| LibraryError (msg : string).

(** The outcome of running a piece of Python code: a value, a raised
    exception, or [OutOfFuel] when the bound put on a [while True] loop is
    reached. *)
Inductive outcome (A : Type) : Type :=
| Ok (a : A)
| Raise (e : exn)
| OutOfFuel.
Arguments Ok {A} a.
Arguments Raise {A} e.
Arguments OutOfFuel {A}.

Definition obind {A B} (m : outcome A) (k : A -> outcome B) : outcome B :=
  match m with
  | Ok a => k a
  | Raise e => Raise e
  | OutOfFuel => OutOfFuel
  end.

#[export] Instance outcome_ret : MRet outcome := fun _ a => Ok a.
#[export] Instance outcome_bind : MBind outcome := fun _ _ k m => obind m k.

Definition raises {A} (o : outcome A) : Prop := exists e, o = Raise e.

Definition from_option {A} (e : exn) (o : option A) : outcome A :=
  match o with
  | Some a => Ok a
  | None => Raise e
  end.

(** [for n, x in enumerate(l): s = body(n, x, s)], stopping at the first
    exception. *)
Fixpoint for_enum {A St} (body : nat -> A -> St -> outcome St)
    (n : nat) (l : list A) (s : St) : outcome St :=
  match l with
  | [] => Ok s
  | x :: xs => s' ← body n x s; for_enum body (S n) xs s'
  end.

(** [[f(x) for x in l]], stopping at the first exception. *)
Fixpoint map_outcome {A B} (f : A -> outcome B) (l : list A) : outcome (list B) :=
  match l with
  | [] => Ok []
  | x :: xs => y ← f x; ys ← map_outcome f xs; Ok (y :: ys)
  end.

(** ** Python built-ins *)

Module Py.

(** [s.split(sep)] for a one-character separator. *)
Fixpoint split (sep : ascii) (s : string) : list string :=
  match s with
  | EmptyString => [EmptyString]
  | String c s' =>
      if Ascii.eqb c sep then EmptyString :: split sep s'
      else match split sep s' with
           | [] => [String c EmptyString]
           | w :: ws => String c w :: ws
           end
  end.

(** [sep.join(l)]. *)
Fixpoint join (sep : string) (l : list string) : string :=
  match l with
  | [] => EmptyString
  | x :: xs =>
      match xs with
      | [] => x
      | _ :: _ => x +:+ sep +:+ join sep xs
      end
  end.

(** [l.index(x)]: the first position of [x], [None] where Python raises
    [ValueError]. *)
Fixpoint index (x : string) (l : list string) : option nat :=
  match l with
  | [] => None
  | y :: ys => if String.eqb y x then Some 0 else S <$> index x ys
  end.

Definition index_exn (x : string) (l : list string) : outcome nat :=
  from_option (ValueError (x +:+ " is not in list")) (index x l).

(** [list(itertools.combinations(l, 2))]. *)
Fixpoint combinations2 {A} (l : list A) : list (A * A) :=
  match l with
  | [] => []
  | x :: xs => map (pair x) xs ++ combinations2 xs
  end.

(** [l[:k]] for a Python integer [k]: a negative [k] counts from the end. *)
Definition slice_to {A} (k : Z) (l : list A) : list A :=
  if (k <? 0)%Z then take (Z.to_nat (Z.of_nat (length l) + k)) l
  else take (Z.to_nat k) l.

(** [s[1:]]. *)
Definition tail_str (s : string) : string :=
  match s with
  | EmptyString => EmptyString
  | String _ s' => s'
  end.

(** [str(n)] for an integer. *)
Definition str_int (n : Z) : string := NilZero.string_of_int (Z.to_int n).

(** [s.strip("()")]: parentheses removed from both ends. *)
Definition is_paren (c : ascii) : bool :=
  Ascii.eqb c "("%char || Ascii.eqb c ")"%char.

Fixpoint lstrip_paren (s : string) : string :=
  match s with
  | EmptyString => EmptyString
  | String c s' => if is_paren c then lstrip_paren s' else s
  end.

Fixpoint rstrip_paren (s : string) : string :=
  match s with
  | EmptyString => EmptyString
  | String c s' =>
      match rstrip_paren s' with
      | EmptyString => if is_paren c then EmptyString else String c EmptyString
      | r => String c r
      end
  end.

Definition strip_paren (s : string) : string := rstrip_paren (lstrip_paren s).

End Py.

(** ** Floating-point values

    p-values and scores are [float64]; they are modelled by the IEEE 754
    specification floats of the standard library (no NaN payload), finite
    values being written in canonical binary64 form.  [==], [<] and [<=] are
    the IEEE comparisons: each of them is [False] when an operand is NaN. *)

Abbreviation float := spec_float.

Definition fzero : float := S754_zero false.
Definition fone : float := S754_finite false 4503599627370496 (-52).
Definition fnan : float := S754_nan.
(** [2 ** (-k)] for [0 < k]. *)
Definition fpow2_neg (k : positive) : float :=
  S754_finite false 4503599627370496 (-52 - Z.pos k).

Abbreviation matrix := (list (list float)).

(** [m[i][j]] on a two-dimensional array, for indices that are not negative. *)
Definition mat_get (m : matrix) (i j : nat) : outcome float :=
  match m !! i with
  | None => Raise IndexError
  | Some row => from_option IndexError (row !! j)
  end.

(** [m[i, j]]: the same element, addressed with one tuple. *)
Definition mat_get_tuple (m : matrix) (ij : nat * nat) : outcome float :=
  match m !! ij.1 with
  | None => Raise IndexError
  | Some row => from_option IndexError (row !! ij.2)
  end.

(** [m[i][j] = v]. *)
Definition mat_set (m : matrix) (i j : nat) (v : float) : outcome matrix :=
  match m !! i with
  | None => Raise IndexError
  | Some row =>
      if decide (j < length row)%nat then Ok (<[i := <[j := v]> row]> m)
      else Raise IndexError
  end.

(** [np.ones((r, c))]. *)
Definition np_ones (r c : nat) : matrix := replicate r (replicate c fone).

(** ** The annotated data container

    Rows are cells, columns are genes.  [uns] holds the derived artifacts;
    the tables that the two modules read or write are typed by the columns
    that are used. *)

(** A row of [uns["nV<n>_cliques"]]; only the column [Vertices] is read. *)
Record clique_row : Type := { Vertices : string }.

(** A row of [uns["cpb_results"]] once its index is reset. *)
Record cpb_row : Type := {
  g1g2 : string;
  gene_id1 : string;
  gene_id2 : string;
  p_val_cond : float
}.

(** A row of [uns["instant_fsm"]]: columns [genes], [#cells], [uIDs]. *)
Record fsm_row : Type := {
  fsm_genes : string;
  fsm_ncells : nat;
  fsm_uIDs : string
}.

(** A row of the bicluster table: columns [gene-pairs], [genes], [uIDs],
    [#cells], [combined], [pre cell expansion], [post cell expansion],
    [instant average], [instant score]; the last two hold strings. *)
Record bicl_row : Type := {
  gene_pairs_col : string;
  genes_col : string;
  uIDs : string;
  ncells : nat;
  combined : Z;
  pre_cell_expansion : float;
  post_cell_expansion : float;
  instant_average : string;
  instant_score : string
}.

Inductive uns_value : Type :=
| UGeneList (names : list string)
| UPvalues (cells : list matrix)
| UCliques (rows : list clique_row)
| UCpb (rows : list cpb_row)
| UTranscripts (columns : list string)
| UFsm (rows : list fsm_row)
| UBiclustering (rows : list bicl_row).

(** What [adata.raw] keeps of the object it is set from. *)
Record Raw : Type := { raw_X : matrix; raw_var_names : list string }.

Record AnnData : Type := {
  X : matrix;
  raw : option Raw;
  obs_names : list string;
  var_names : list string;
  uns : gmap string uns_value
}.

Definition n_obs (a : AnnData) : nat := length (obs_names a).

Definition set_uns (k : string) (v : uns_value) (a : AnnData) : AnnData :=
  {| X := X a; raw := raw a; obs_names := obs_names a;
     var_names := var_names a; uns := <[k := v]> (uns a) |}.

Definition set_raw (r : Raw) (a : AnnData) : AnnData :=
  {| X := X a; raw := Some r; obs_names := obs_names a;
     var_names := var_names a; uns := uns a |}.

Definition set_X (x : matrix) (a : AnnData) : AnnData :=
  {| X := x; raw := raw a; obs_names := obs_names a;
     var_names := var_names a; uns := uns a |}.

(** [a.uns[k]]. *)
Definition uns_get (a : AnnData) (k : string) : outcome uns_value :=
  from_option (KeyError k) (uns a !! k).

(** ** The world: object store, file system, and the calls that leave the
    process *)

Inductive pp_variant : Type := PP2D | PP3D | PP3D_slice.

Inductive event : Type :=
| EvWriteH5ad (filename : string)
| EvLoadPreprocessed (filename : string)
| EvProximalPairs (v : pp_variant)
| EvGlobalColocalization
| EvFsm
| EvReadH5ad (filename : string)
| EvRm (filename : string).

Record world : Type := {
  heap : gmap nat AnnData;
  files : gmap string AnnData;
  log : list event
}.

Definition with_heap (h : gmap nat AnnData) (w : world) : world :=
  {| heap := h; files := files w; log := log w |}.
Definition with_files (f : gmap string AnnData) (w : world) : world :=
  {| heap := heap w; files := f; log := log w |}.
Definition emit (e : event) (w : world) : world :=
  {| heap := heap w; files := files w; log := log w ++ [e] |}.

(** A location that the store does not use yet. *)
Definition fresh_loc (h : gmap nat AnnData) : nat := fresh (dom h).

(** Dereferencing a name bound to an [AnnData] object. *)
Definition deref (w : world) (l : nat) : outcome AnnData :=
  from_option TypeError (heap w !! l).

(** Stateful code: a function of the world that returns an outcome and the
    world it leaves behind, also when it raises. *)
Definition M (A : Type) : Type := world -> outcome A * world.

#[export] Instance M_ret : MRet M := fun _ a w => (Ok a, w).
#[export] Instance M_bind : MBind M := fun _ _ k m w =>
  match m w with
  | (Ok a, w') => k a w'
  | (Raise e, w') => (Raise e, w')
  | (OutOfFuel, w') => (OutOfFuel, w')
  end.

Definition lift {A} (o : outcome A) : M A := fun w => (o, w).
Definition get_obj (l : nat) : M AnnData := fun w => (deref w l, w).
Definition set_obj (l : nat) (a : AnnData) : M unit :=
  fun w => (Ok tt, with_heap (<[l := a]> (heap w)) w).

(** Modelled from the spec: [write_h5ad] of [cellSP/io], the helper that
    writes the serialized data-container file; the file then holds the
    object as it is at the time of the call. *)
Definition write_h5ad (a : AnnData) (filename : string) : M unit :=
  fun w => (Ok tt, emit (EvWriteH5ad filename)
                     (with_files (<[filename := a]> (files w)) w)).

(** Modelled from the spec: [read_h5ad] of [cellSP/io], the helper that
    reads the file back; it builds a new object and fails when there is no
    such file. *)
Definition read_h5ad (filename : string) : M nat :=
  fun w =>
    let w1 := emit (EvReadH5ad filename) w in
    match files w1 !! filename with
    | None => (Raise (FileNotFoundError filename), w1)
    | Some a =>
        let l := fresh_loc (heap w1) in
        (Ok l, with_heap (<[l := a]> (heap w1)) w1)
    end.

(** [subprocess.run(["rm", filename])]: the file is gone afterwards; the
    exit status of [rm] is not looked at, so nothing is raised when the file
    does not exist. *)
Definition subprocess_rm (filename : string) : M unit :=
  fun w => (Ok tt, emit (EvRm filename)
                     (with_files (delete filename (files w)) w)).

(** ** The InSTAnT library

    The [Instant] object is handed a file name; its methods work on the
    file system and on the state of the object. *)
Class InstantLib : Type := {
  instant : Type;
  Instant_init : float -> Z -> instant;
  load_preprocessed_data :
    instant -> string -> gmap string AnnData -> outcome instant;
  run_ProximalPairs :
    pp_variant -> instant -> float -> Z -> gmap string AnnData ->
    outcome (instant * gmap string AnnData);
  run_GlobalColocalization :
    instant -> bool -> float -> gmap string AnnData ->
    outcome (instant * gmap string AnnData);
  run_fsm :
    instant -> Z -> float -> gmap string AnnData ->
    outcome (instant * gmap string AnnData)
}.

(** A method call on the external object: the call is logged, and the
    files are the ones the method leaves. *)
Definition call_lib {O : Type} (ev : event)
    (f : gmap string AnnData -> outcome (O * gmap string AnnData)) : M O :=
  fun w =>
    let w1 := emit ev w in
    match f (files w1) with
    | Ok (o, fs) => (Ok o, with_files fs w1)
    | Raise e => (Raise e, w1)
    | OutOfFuel => (OutOfFuel, w1)
    end.

Definition temp_name (draw : Z) : string :=
  ".cellSP_st_" +:+ Py.str_int draw +:+ ".h5ad".

Definition transcripts_columns (v : uns_value) : outcome (list string) :=
  match v with
  | UTranscripts cols => Ok cols
  | _ => Raise TypeError
  end.

Section RunInstant.
Context `{IL : InstantLib}.

(** Lines 38-51 of [run_instant]: the file name is chosen, the tests are
    run by the external object; the file name is the result.  [draw] is
    the number [random.randint(0, int(1e7))] returns. *)
Definition run_instant_tests (adata_st : nat) (distance_threshold : float)
    (threads n_vertices : Z) (alpha_cpb alpha_fsm : float)
    (filename : option string) (is_sliced : bool) (draw : Z) : M string :=
  a ← get_obj adata_st;
  filename ← match filename with
             | None =>
                 let filename := temp_name draw in
                 _ ← write_h5ad a filename; mret filename
             | Some filename => mret filename
             end;
  let obj := Instant_init distance_threshold threads in
  obj ← call_lib (EvLoadPreprocessed filename)
        (fun fs => o ← load_preprocessed_data obj filename fs; Ok (o, fs));
  tr ← lift (uns_get a "transcripts");
  cols ← lift (transcripts_columns tr);
  obj ← (if bool_decide ("absZ" ∈ cols) then
           if is_sliced then
             call_lib (EvProximalPairs PP3D_slice)
               (run_ProximalPairs PP3D_slice obj distance_threshold 20)
           else
             call_lib (EvProximalPairs PP3D)
               (run_ProximalPairs PP3D obj distance_threshold 20)
         else
           call_lib (EvProximalPairs PP2D)
             (run_ProximalPairs PP2D obj distance_threshold 20));
  obj ← call_lib EvGlobalColocalization
        (run_GlobalColocalization obj true alpha_cpb);
  _ ← call_lib EvFsm (run_fsm obj n_vertices alpha_fsm);
  mret filename.

(** Lines 52-55: the results are read back, the file is removed when
    asked for, the new object is returned. *)
Definition run_instant (adata_st : nat) (distance_threshold : float)
    (threads n_vertices : Z) (alpha_cpb alpha_fsm : float)
    (filename : option string) (remove_file is_sliced : bool) (draw : Z)
    : M nat :=
  filename ← run_instant_tests adata_st distance_threshold threads
               n_vertices alpha_cpb alpha_fsm filename is_sliced draw;
  adata_st ← read_h5ad filename;
  _ ← (if remove_file then subprocess_rm filename else mret tt);
  mret adata_st.

End RunInstant.

(** ** MAGIC *)
Class MagicLib : Type := {
  magic_kwargs : Type;
  magic_operator : Type;
  MAGIC : Z -> magic_kwargs -> outcome magic_operator;
  fit_transform : magic_operator -> AnnData -> outcome AnnData
}.

Section Impute.
Context `{ML : MagicLib}.

(** [adata.raw = adata] keeps the matrix and the variables the object has
    at that time. *)
Definition raw_of (a : AnnData) : Raw :=
  {| raw_X := X a; raw_var_names := var_names a |}.

Definition impute (adata : nat) (n_jobs : Z) (kwargs : magic_kwargs) : M nat :=
  magic_operator ← lift (MAGIC n_jobs kwargs);
  a ← get_obj adata;
  X_magic ← lift (fit_transform magic_operator a);
  a ← get_obj adata;
  _ ← set_obj adata (set_raw (raw_of a) a);
  a ← get_obj adata;
  _ ← set_obj adata (set_X (X X_magic) a);
  mret adata.

End Impute.

(** ** What the Python run time and numpy leave open

    [str] of a float, and the order in which a [set] of strings is
    iterated, are functions of the interpreter; [np.log10], [np.mean] and
    scikit-learn's [scale] are library arithmetic. *)
Class PyRuntime : Type := {
  str_float : float -> string;
  list_of_set : list string -> list string;
  np_log10 : float -> float;
  np_mean : matrix -> float;
  scale : matrix -> outcome matrix
}.

Definition as_gene_list (v : uns_value) : outcome (list string) :=
  match v with UGeneList l => Ok l | _ => Raise TypeError end.
Definition as_pvalues (v : uns_value) : outcome (list matrix) :=
  match v with UPvalues l => Ok l | _ => Raise TypeError end.
Definition as_cliques (v : uns_value) : outcome (list clique_row) :=
  match v with UCliques l => Ok l | _ => Raise TypeError end.
Definition as_cpb (v : uns_value) : outcome (list cpb_row) :=
  match v with UCpb l => Ok l | _ => Raise TypeError end.

(** [all(l)] on a list of booleans. *)
Definition py_all (l : list bool) : bool := forallb (fun b => b) l.

(** [a[idx]] for a list of positions [idx] (numpy fancy indexing). *)
Definition gather {A} (a : list A) (idx : list nat) : outcome (list A) :=
  map_outcome (fun i => from_option IndexError (a !! i)) idx.

Section Instant.
Context `{RT : PyRuntime}.

Definition cliques_key (n_vertices : Z) : string :=
  "nV" +:+ Py.str_int n_vertices +:+ "_cliques".
Definition pvalues_key (distance_threshold : float) : string :=
  "pp_test_d" +:+ str_float distance_threshold +:+ "_pvalues".

(** *** analyse_fsm *)

(** Line 78: the positions of the clique's genes. *)
Definition gene_indexes (a : AnnData) (vertices : string) : outcome (list nat) :=
  map_outcome
    (fun x => geneList ← uns_get a "geneList" ≫= as_gene_list;
              Py.index_exn x geneList)
    (Py.split "," vertices).

(** Line 81: the test made on one cell. *)
Definition cell_passes (alpha : float) (idx : list nat) (cell : matrix)
    : outcome bool :=
  tests ← map_outcome
            (fun ij => v ← mat_get cell ij.1 ij.2; Ok (SFltb v alpha))
            (Py.combinations2 idx);
  Ok (py_all tests).

(** Lines 79-82: the identifiers of the cells that pass. *)
Definition clique_uids (alpha : float) (cell_ids : list string)
    (idx : list nat) (pvalues : list matrix) : outcome (list string) :=
  for_enum
    (fun n cell uids =>
       ok ← cell_passes alpha idx cell;
       if ok : bool then
         uid ← from_option IndexError (cell_ids !! n); Ok (uids ++ [uid])
       else Ok uids)
    0 pvalues [].

Definition fsm_entry (vertices : string) (uids : list string) : fsm_row :=
  {| fsm_genes := vertices; fsm_ncells := length uids;
     fsm_uIDs := Py.join "," uids |}.

(** Lines 74-85: the table that is stored. *)
Definition analyse_fsm_table (a : AnnData) (top_k n_vertices : Z)
    (distance_threshold alpha : float) : outcome (list fsm_row) :=
  cliques ← uns_get a (cliques_key n_vertices) ≫= as_cliques;
  let df_topk := Py.slice_to top_k cliques in
  let cell_ids := obs_names a in
  for_enum
    (fun _ i rows =>
       idx ← gene_indexes a (Vertices i);
       pvalues ← uns_get a (pvalues_key distance_threshold) ≫= as_pvalues;
       uids ← clique_uids alpha cell_ids idx pvalues;
       if decide (5 ≤ length uids)%nat
       then Ok (rows ++ [fsm_entry (Vertices i) uids])
       else Ok rows)
    0 df_topk [].

Definition analyse_fsm (adata_st : nat) (top_k n_vertices : Z)
    (distance_threshold alpha : float) : M nat :=
  a ← get_obj adata_st;
  df_topk ← lift (analyse_fsm_table a top_k n_vertices distance_threshold alpha);
  a ← get_obj adata_st;
  _ ← set_obj adata_st (set_uns "instant_fsm" (UFsm df_topk) a);
  mret adata_st.

(** *** bicluster_instant: from the p-value tensors to the matrix *)

Definition cpb_missing : string :=
  "CPB results not found in adata_st.uns. Please run `run_instant` first.".

(** Lines 111-115: the validation check and the filter on [p_val_cond]. *)
Definition require_cpb_results (a : AnnData) (alpha : float)
    : outcome (list cpb_row) :=
  match uns a !! "cpb_results" with
  | Some v =>
      cpb_results ← as_cpb v;
      Ok (List.filter (fun r => SFleb (p_val_cond r) alpha) cpb_results)
  | None => Raise (ValueError cpb_missing)
  end.

(** Line 129: [assert cell[index1, index2] == cell[index1][index2]]. *)
Definition assert_entry (cell : matrix) (index1 index2 : nat) : outcome unit :=
  x ← mat_get_tuple cell (index1, index2);
  y ← mat_get cell index1 index2;
  if SFeqb x y then Ok tt else Raise AssertionError.

(** Lines 128-130: one column of the matrix is filled, cell by cell. *)
Definition fill_column (pp_pvalues : list matrix) (index1 index2 n : nat)
    (pval_matrix : matrix) : outcome matrix :=
  for_enum
    (fun pos cell pval_matrix =>
       _ ← assert_entry cell index1 index2;
       v ← mat_get cell index1 index2;
       mat_set pval_matrix pos n v)
    0 pp_pvalues pval_matrix.

(** Lines 124-125: the positions of the two genes of a pair. *)
Definition pair_indexes (geneList : list string) (i : cpb_row)
    : outcome (nat * nat) :=
  index1 ← Py.index_exn (gene_id1 i) geneList;
  index2 ← Py.index_exn (gene_id2 i) geneList;
  Ok (index1, index2).

(** Lines 123-130. *)
Definition fill_matrix (geneList : list string) (pp_pvalues : list matrix)
    (cpb_results : list cpb_row) (pval_matrix : matrix)
    : outcome (matrix * list string) :=
  for_enum
    (fun n i st =>
       ix ← pair_indexes geneList i;
       let pair_genes := st.2 ++ [gene_id1 i; gene_id2 i] in
       pval_matrix ← fill_column pp_pvalues ix.1 ix.2 n st.1;
       Ok (pval_matrix, pair_genes))
    0 cpb_results (pval_matrix, []).

(** [-np.log10(m)], entry by entry. *)
Definition neg_log10 (m : matrix) : matrix :=
  map (map (fun v => SFopp (np_log10 v))) m.

(** Lines 111-131: the rows of the CPB table that are kept, the matrix
    handed to the biclustering, the genes of the pairs. *)
Definition extract_pvalues (a : AnnData) (distance_threshold alpha : float)
    : outcome (list cpb_row * matrix * list string) :=
  cpb_results ← require_cpb_results a alpha;
  let pval_matrix := np_ones (n_obs a) (length (map g1g2 cpb_results)) in
  pp_pvalues ← uns_get a (pvalues_key distance_threshold) ≫= as_pvalues;
  geneList ← uns_get a "geneList" ≫= as_gene_list;
  st ← fill_matrix geneList pp_pvalues cpb_results pval_matrix;
  Ok (cpb_results, neg_log10 st.1, st.2).

End Instant.

(** ** The sibling module [_bicluster]

    [LargeAverageSubmatrices], [_log_combs], [_expand_bicluster_rows],
    [_expand_bicluster] and [_get_sprawl_score] are imported from
    [cellSP/characterize/_bicluster.py]; they are called through this
    interface. *)

Record Bicluster : Type := {
  rows : list nat;
  cols : list nat;
  score : float
}.

Class BiclusterLib : Type := {
  score_issue : Type;
  LargeAverageSubmatrices_run :
    Z -> Z -> bool -> Z -> matrix -> outcome (list Bicluster);
  _log_combs : nat -> list float;
  _expand_bicluster_rows : matrix -> list nat -> list nat -> outcome (list nat);
  _get_sprawl_score :
    list nat -> matrix -> list nat -> list float -> list float -> outcome float;
  _expand_bicluster :
    list bicl_row -> matrix -> matrix -> list string -> list score_issue ->
    list nat -> list float -> list float -> string -> list string ->
    outcome (list bicl_row * list score_issue)
}.

Section Biclustering.
Context `{RT : PyRuntime} `{BL : BiclusterLib}.

(** Line 133: ["A, B"] becomes ["(A,B)"]. *)
Definition format_pair (x : string) : outcome string :=
  let parts := Py.split "," x in
  p0 ← from_option IndexError (parts !! 0%nat);
  p1 ← from_option IndexError (parts !! 1%nat);
  Ok ("(" +:+ p0 +:+ "," +:+ Py.tail_str p1 +:+ ")").

(** [m[rows][:, cols]]. *)
Definition submatrix (m : matrix) (rs cs : list nat) : outcome matrix :=
  sel ← gather m rs;
  map_outcome (fun row => gather row cs) sel.

(** Lines 148-154: the row of the table made from one bicluster. *)
Definition bicluster_row (gene_pairs : list string) (uids : list string)
    (pval_matrix pval_matrix_scaled : matrix) (col_range : list nat)
    (col_log_combs row_log_combs : list float) (bicluster : Bicluster)
    : outcome bicl_row :=
  bicluster_pairs ← gather gene_pairs (cols bicluster);
  let bicluster_genes :=
    list_of_set
      (flat_map (fun pair => Py.split "," (Py.strip_paren pair)) bicluster_pairs) in
  rows' ← _expand_bicluster_rows pval_matrix (rows bicluster) (cols bicluster);
  bicluster_cells ← gather uids rows';
  calculated_score ← _get_sprawl_score rows' pval_matrix_scaled col_range
                       col_log_combs row_log_combs;
  sub ← submatrix pval_matrix rows' (cols bicluster);
  Ok {| gene_pairs_col := Py.join ", " bicluster_pairs;
        genes_col := Py.join "," bicluster_genes;
        uIDs := Py.join "," bicluster_cells;
        ncells := length bicluster_cells;
        combined := 0;
        pre_cell_expansion := score bicluster;
        post_cell_expansion := calculated_score;
        instant_average := str_float (np_mean sub);
        instant_score := str_float calculated_score |}.

(** Lines 146-157: the biclusters with more than two columns, in the
    order in which they are returned. *)
Definition initial_table (gene_pairs : list string) (uids : list string)
    (pval_matrix pval_matrix_scaled : matrix) (col_range : list nat)
    (col_log_combs row_log_combs : list float) (biclusters : list Bicluster)
    : outcome (list bicl_row) :=
  for_enum
    (fun _ bicluster rows =>
       if decide (2 < length (cols bicluster))%nat then
         r ← bicluster_row gene_pairs uids pval_matrix pval_matrix_scaled
               col_range col_log_combs row_log_combs bicluster;
         Ok (rows ++ [r])
       else Ok rows)
    0%nat biclusters [].

(** Lines 159-163: [while True], bounded by [fuel] iterations. *)
Fixpoint expand_loop (fuel : nat)
    (expand : list bicl_row -> list score_issue ->
              outcome (list bicl_row * list score_issue))
    (df_results : list bicl_row) (score_issues : list score_issue)
    : outcome (list bicl_row * list score_issue) :=
  match fuel with
  | O => OutOfFuel
  | S fuel' =>
      let original_length := length df_results in
      r ← expand df_results score_issues;
      if decide (length r.1 = original_length) then Ok r
      else expand_loop fuel' expand r.1 r.2
  end.

(** Line 161: one call of [_expand_bicluster], as a function of the
    table and of the list of score issues. *)
Definition expansion_step (pval_matrix pval_matrix_scaled : matrix)
    (uids : list string) (col_range : list nat)
    (col_log_combs row_log_combs : list float) (gene_pairs : list string)
    (df_results : list bicl_row) (score_issues : list score_issue)
    : outcome (list bicl_row * list score_issue) :=
  _expand_bicluster df_results pval_matrix pval_matrix_scaled uids
    score_issues col_range col_log_combs row_log_combs "instant" gene_pairs.



(** Line 164: the number of comma-separated identifiers of a row. *)
Definition uid_count (r : bicl_row) : Z :=
  Z.of_nat (length (Py.split "," (uIDs r))).

Definition keep_large (cell_threshold : Z) (df : list bicl_row) : list bicl_row :=
  List.filter (fun r => (cell_threshold <? uid_count r)%Z) df.

(** Lines 111-165: the table stored under ["instant_biclustering"]. *)
Definition bicluster_table (fuel : nat) (a : AnnData)
    (distance_threshold : float) (num_biclusters randomized_searches : Z)
    (scale_data : bool) (alpha : float) (cell_threshold threads : Z)
    : outcome (list bicl_row) :=
  ex ← extract_pvalues a distance_threshold alpha;
  let cpb_results := ex.1.1 in
  let pval_matrix := ex.1.2 in
  let pair_genes := list_of_set ex.2 in
  gene_pairs ← map_outcome format_pair (map g1g2 cpb_results);
  biclusters ← LargeAverageSubmatrices_run num_biclusters randomized_searches
                 scale_data threads pval_matrix;
  _ ← scale pval_matrix;
  pval_matrix_scaled ← scale pval_matrix;
  let uids := obs_names a in
  let shape0 := n_obs a in
  let shape1 := length (map g1g2 cpb_results) in
  let row_log_combs := drop 1 (_log_combs shape0) in
  let col_log_combs := drop 1 (_log_combs shape1) in
  let col_range := seq 1 shape1 in
  df_results ← initial_table gene_pairs uids pval_matrix pval_matrix_scaled
                 col_range col_log_combs row_log_combs biclusters;
  r ← expand_loop fuel
        (expansion_step pval_matrix pval_matrix_scaled uids col_range
           col_log_combs row_log_combs gene_pairs)
        df_results [];
  Ok (keep_large cell_threshold r.1).

Definition bicluster_instant (fuel : nat) (adata_st : nat)
    (distance_threshold : float) (num_biclusters randomized_searches : Z)
    (scale_data : bool) (alpha : float) (cell_threshold threads : Z) : M nat :=
  a ← get_obj adata_st;
  df_results ← lift (bicluster_table fuel a distance_threshold num_biclusters
                       randomized_searches scale_data alpha cell_threshold
                       threads);
  a ← get_obj adata_st;
  _ ← set_obj adata_st (set_uns "instant_biclustering" (UBiclustering df_results) a);
  mret adata_st.

End Biclustering.

(** ** Vocabulary of the statements *)

(** [appends P m]: whatever [m] does, it only adds events to the log, and
    each of them satisfies [P]. *)
Definition appends {A} (P : event -> Prop) (m : M A) : Prop :=
  forall w, exists evs, log (m w).2 = log w ++ evs /\ Forall P evs.

Definition is_write (e : event) : Prop := exists f, e = EvWriteH5ad f.
Definition is_rm (e : event) : Prop := exists f, e = EvRm f.
Definition is_read (e : event) : Prop := exists f, e = EvReadH5ad f.

(** The chosen file name: the one given, or the temporary one. *)
Definition file_used (filename : option string) (draw : Z) : string :=
  match filename with
  | Some f => f
  | None => temp_name draw
  end.

(** [k] is the first position of [name] in [l]. *)
Definition first_position (l : list string) (name : string) (k : nat) : Prop :=
  l !! k = Some name /\ forall j, (j < k)%nat -> l !! j <> Some name.

Definition is_nan (v : float) : bool :=
  match v with S754_nan => true | _ => false end.

(** [keeps_heap m]: whatever [m] does, the object store is as before. *)
Definition keeps_heap {A} (m : M A) : Prop :=
  forall w, heap (m w).2 = heap w.

(** The variant of the proximal-pairs test that is run for transcripts with
    the columns [cols]. *)
Definition pp_choice (cols : list string) (is_sliced : bool) : pp_variant :=
  if bool_decide ("absZ" ∈ cols) then
    if is_sliced then PP3D_slice else PP3D
  else PP2D.

(** The first character of [s] is a parenthesis. *)
Definition leading_paren (s : string) : bool :=
  match s with
  | EmptyString => false
  | String c _ => Py.is_paren c
  end.

(** [sep in s]. *)
Fixpoint has_char (sep : ascii) (s : string) : bool :=
  match s with
  | EmptyString => false
  | String c s' => Ascii.eqb c sep || has_char sep s'
  end.

(** A bicluster with more than two columns. *)
Definition wide (b : Bicluster) : bool :=
  bool_decide (2 < length (cols b))%nat.

(** The entry of a matrix at row [r] and column [c], when there is one. *)
Definition entry (m : matrix) (r c : nat) : option float :=
  m !! r ≫= (.!! c).

(** Every two genes of the clique, the first one earlier in the clique,
    have in [cell] a p-value strictly below [alpha], read at the positions
    of the two genes in the gene list. *)
Definition all_pairs_below (geneList : list string) (alpha : float)
    (names : list string) (cell : matrix) : Prop :=
  forall p q g h, (p < q)%nat -> names !! p = Some g -> names !! q = Some h ->
    exists i j v,
      first_position geneList g i /\ first_position geneList h j /\
      mat_get cell i j = Ok v /\ SFltb v alpha = true.

(** [selected P ids n cells uids]: [uids] lists, in the order of the
    cells, the identifiers [ids[n + k]] of the cells [cells[k]] that
    satisfy [P]. *)
Inductive selected (P : matrix -> Prop) (ids : list string)
    : nat -> list matrix -> list string -> Prop :=
| selected_nil n : selected P ids n [] []
| selected_keep n c cs uid us :
    P c -> ids !! n = Some uid -> selected P ids (S n) cs us ->
    selected P ids n (c :: cs) (uid :: us)
| selected_skip n c cs us :
    ~ P c -> selected P ids (S n) cs us -> selected P ids n (c :: cs) us.

(** The cells kept for a clique: the p-value tensor and the gene list are
    there, and the identifiers are those of the cells in which all pairs of
    genes of the clique are below [alpha]. *)
Definition clique_cells `{RT : PyRuntime} (a : AnnData)
    (distance_threshold alpha : float) (cl : clique_row) (uids : list string)
    : Prop :=
  exists pp geneList,
    uns a !! pvalues_key distance_threshold = Some (UPvalues pp) /\
    uns a !! "geneList" = Some (UGeneList geneList) /\
    selected (all_pairs_below geneList alpha (Py.split "," (Vertices cl)))
      (obs_names a) 0 pp uids.

(** The rows a clique contributes: one when it has five cells or more,
    with the number of its cells and their identifiers, none otherwise. *)
Definition fsm_rows_of (cu : clique_row * list string) : list fsm_row :=
  if decide (5 <= length cu.2)%nat
  then [ {| fsm_genes := Vertices cu.1; fsm_ncells := length cu.2;
            fsm_uIDs := Py.join "," cu.2 |} ]
  else [].

(** Lines 78-84 for one clique, as the rows it adds. *)
Definition per_clique `{RT : PyRuntime} (a : AnnData)
    (distance_threshold alpha : float) (cl : clique_row)
    : outcome (list fsm_row) :=
  idx ← gene_indexes a (Vertices cl);
  pvalues ← uns_get a (pvalues_key distance_threshold) ≫= as_pvalues;
  uids ← clique_uids alpha (obs_names a) idx pvalues;
  Ok (fsm_rows_of (cl, uids)).

(** ** Fixtures

    Small instances of the interfaces and small data containers, on which
    the functions above are run in the examples.  The library functions are
    stand-ins: each is right on the values the examples feed it and returns
    a fixed value elsewhere. *)
Module Fixture.

Definition f_half : float := fpow2_neg 1.
Definition f_quarter : float := fpow2_neg 2.
Definition f_two : float := S754_finite false 4503599627370496 (-51).
(** The doubles nearest to 0.1, 0.01 and 0.001. *)
Definition f_1e1 : float := S754_finite false 7205759403792794 (-56).
Definition f_1e2 : float := S754_finite false 5764607523034235 (-59).
Definition f_1e3 : float := S754_finite false 4611686018427388 (-62).
Definition f_int (n : positive) : float :=
  match n with
  | 1%positive => fone
  | 2%positive => f_two
  | _ => S754_finite false 6755399441055744 (-51)
  end.

Definition float_eq_dec (x y : float) : {x = y} + {x <> y}.
Proof. repeat decide equality. Defined.

Definition log10_table (x : float) : float :=
  if float_eq_dec x fone then fzero
  else if float_eq_dec x f_1e1 then SFopp (f_int 1)
  else if float_eq_dec x f_1e2 then SFopp (f_int 2)
  else if float_eq_dec x f_1e3 then SFopp (f_int 3)
  else fnan.

Definition str_table (x : float) : string :=
  if float_eq_dec x fone then "1.0"
  else if float_eq_dec x f_two then "2.0"
  else if float_eq_dec x f_half then "0.5"
  else if float_eq_dec x fzero then "0.0"
  else "nan".

Fixpoint dedup (l : list string) : list string :=
  match l with
  | [] => []
  | x :: xs => x :: List.filter (fun y => negb (String.eqb x y)) (dedup xs)
  end.

#[export] Instance runtime : PyRuntime := {|
  str_float := str_table;
  list_of_set := dedup;
  np_log10 := log10_table;
  np_mean := fun m => match m with (x :: _) :: _ => x | _ => fnan end;
  scale := fun m => Ok m
|}.

(** A biclustering that returns two fixed biclusters, and helpers that
    leave their argument as it is. *)
Definition found : list Bicluster :=
  [ {| rows := [0; 1]; cols := [0; 1; 2]; score := f_two |};
    {| rows := [0]; cols := [0; 1]; score := fone |} ]%nat.

#[export] Instance bicluster_lib : BiclusterLib := {|
  score_issue := string;
  LargeAverageSubmatrices_run := fun _ _ _ _ _ => Ok found;
  _log_combs := fun n => replicate (S n) fzero;
  _expand_bicluster_rows := fun _ rs _ => Ok rs;
  _get_sprawl_score := fun _ _ _ _ _ => Ok fone;
  _expand_bicluster := fun df _ _ _ si _ _ _ _ _ => Ok (df, si)
|}.

(** An external object that remembers the file it loaded and writes an
    empty clique table into it when the mining is run. *)
Definition touch (name : string) (fs : gmap string AnnData)
    : outcome (string * gmap string AnnData) :=
  match fs !! name with
  | Some a => Ok (name, <[name := set_uns "nV3_cliques" (UCliques []) a]> fs)
  | None => Raise (FileNotFoundError name)
  end.

#[export] Instance instant_lib : InstantLib := {|
  instant := string;
  Instant_init := fun _ _ => EmptyString;
  load_preprocessed_data := fun _ name fs =>
    match fs !! name with
    | Some _ => Ok name
    | None => Raise (FileNotFoundError name)
    end;
  run_ProximalPairs := fun _ o _ _ fs => Ok (o, fs);
  run_GlobalColocalization := fun o _ _ fs => Ok (o, fs);
  run_fsm := fun o _ _ fs => touch o fs
|}.

(** An imputation that sets every entry to one. *)
#[export] Instance magic_lib : MagicLib := {|
  magic_kwargs := unit;
  magic_operator := unit;
  MAGIC := fun _ _ => Ok tt;
  fit_transform := fun _ a => Ok (set_X (map (map (fun _ => fone)) (X a)) a)
|}.

Definition genes3 : list string := ["A"; "B"; "C"].

(** Three cells over the genes A, B, C.  The matrix of the first cell is
    not symmetric; the second holds a NaN at (0, 1). *)
Definition cell_a : matrix :=
  [ [fone; f_1e3; f_1e2]; [f_1e1; fone; f_1e3]; [f_1e2; f_1e3; fone] ].
Definition cell_nan : matrix :=
  [ [fone; fnan; f_1e2]; [fnan; fone; f_1e3]; [f_1e2; f_1e3; fone] ].
Definition cell_b : matrix :=
  [ [fone; f_1e2; f_1e2]; [f_1e2; fone; f_1e1]; [f_1e2; f_1e1; fone] ].

Definition cpb3 : list cpb_row :=
  [ {| g1g2 := "A, B"; gene_id1 := "A"; gene_id2 := "B"; p_val_cond := f_1e3 |};
    {| g1g2 := "A, C"; gene_id1 := "A"; gene_id2 := "C"; p_val_cond := f_half |};
    {| g1g2 := "B, C"; gene_id1 := "B"; gene_id2 := "C"; p_val_cond := f_1e2 |} ].

Definition mk_adata (ids : list string) (u : gmap string uns_value) : AnnData :=
  {| X := map (fun _ => [fzero; fzero; fzero]) ids; raw := None;
     obs_names := ids; var_names := genes3; uns := u |}.

Definition world_of (a : AnnData) : world :=
  {| heap := {[ 0%nat := a ]}; files := ∅; log := [] |}.

(** Two-dimensional transcripts, no result yet. *)
Definition adata_fresh : AnnData :=
  mk_adata ["c1"; "c2"] {[ "transcripts" := UTranscripts ["x"; "y"; "gene"] ]}.

(** The CPB table is there, the p-value tensors are not. *)
Definition adata_cpb_only : AnnData :=
  mk_adata ["c1"; "c2"] {[ "cpb_results" := UCpb cpb3 ]}.

(** Everything [bicluster_instant] reads is there; three cells, but the
    tensor holds the matrices of two of them. *)
Definition adata_tested (cells : list matrix) : AnnData :=
  mk_adata ["c1"; "c2"; "c3"]
    (<[ "cpb_results" := UCpb cpb3 ]>
       (<[ "geneList" := UGeneList genes3 ]>
          {[ "pp_test_d2.0_pvalues" := UPvalues cells ]})).

Definition w_tested : world := world_of (adata_tested [cell_a; cell_b]).

(** [bicluster_instant] on three cells and three gene pairs, all of them
    kept, with a threshold of one cell. *)
Definition biclustered : outcome nat * world :=
  bicluster_instant 10 0%nat f_two 100 50000 true fone 1 1 w_tested.

(** What the extraction returns on that object with [alpha = 0.01]. *)
Definition extracted : list cpb_row * matrix * list string :=
  match extract_pvalues (adata_tested [cell_a; cell_b]) f_two f_1e2 with
  | Ok r => r
  | _ => ([], [], [])
  end.

(** Seven cells and a table of three cliques. *)
Definition adata_cliques : AnnData :=
  mk_adata ["c1"; "c2"; "c3"; "c4"; "c5"; "c6"; "c7"]
    (<[ "nV3_cliques" := UCliques [ {| Vertices := "A,B,C" |};
                                    {| Vertices := "A,B" |};
                                    {| Vertices := "B,C" |} ] ]>
       (<[ "geneList" := UGeneList genes3 ]>
          {[ "pp_test_d2.0_pvalues" :=
               UPvalues [cell_b; cell_nan; cell_b; cell_b; cell_a; cell_b;
                         cell_b] ]})).

(** The two top cliques at [alpha = 0.1]. *)
Definition analysed : outcome nat * world :=
  analyse_fsm 0%nat 2 3 f_two f_1e1 (world_of adata_cliques).

Definition a_row (ids : string) : bicl_row :=
  {| gene_pairs_col := "(A,B)"; genes_col := "A,B"; uIDs := ids;
     ncells := 1; combined := 0; pre_cell_expansion := fone;
     post_cell_expansion := fone; instant_average := "1.0";
     instant_score := "1.0" |}.

(** An expansion that adds one row as long as the table has fewer than
    three. *)
Definition add_until_three (df : list bicl_row) (si : list string)
    : outcome (list bicl_row * list string) :=
  if (length df <? 3)%nat then Ok (df ++ [a_row "c9"], si) else Ok (df, si).

(** [analyse_fsm] on an object without clique table, and the table that the
    run [analysed] stores. *)
Definition analysed_missing : outcome nat * world :=
  analyse_fsm 0%nat 2 3 f_two f_1e1 (world_of adata_fresh).
Definition fsm_table : list fsm_row :=
  [ {| fsm_genes := "A,B"; fsm_ncells := 6; fsm_uIDs := "c1,c3,c4,c5,c6,c7" |} ].

(** The table row made from the first of the biclusters [found]. *)
Definition first_row : bicl_row :=
  match bicluster_row ["(A,B)"; "(A,C)"; "(B,C)"] ["c1"; "c2"; "c3"]
          cell_b cell_b [1; 2; 3]%nat [] []
          {| rows := [0; 1]%nat; cols := [0; 1; 2]%nat; score := f_two |}
  with
  | Ok r => r
  | _ => a_row ""
  end.

(** An external object that cannot load any file. *)
Definition failing_instant : InstantLib := {|
  instant := unit;
  Instant_init := fun _ _ => tt;
  load_preprocessed_data := fun _ _ _ => Raise (LibraryError "load");
  run_ProximalPairs := fun _ o _ _ fs => Ok (o, fs);
  run_GlobalColocalization := fun o _ _ fs => Ok (o, fs);
  run_fsm := fun o _ _ fs => Ok (o, fs)
|}.

(** A biclustering that returns one bicluster of one cell and three
    columns, and a data object whose first cell identifier holds a comma. *)
Definition one_cell_lib : BiclusterLib := {|
  score_issue := string;
  LargeAverageSubmatrices_run := fun _ _ _ _ _ =>
    Ok [ {| rows := [0]%nat; cols := [0; 1; 2]%nat; score := f_two |} ];
  _log_combs := fun n => replicate (S n) fzero;
  _expand_bicluster_rows := fun _ rs _ => Ok rs;
  _get_sprawl_score := fun _ _ _ _ _ => Ok fone;
  _expand_bicluster := fun df _ _ _ si _ _ _ _ _ => Ok (df, si)
|}.

Definition adata_comma : AnnData :=
  mk_adata ["s1,c1"; "c2"; "c3"]
    (<[ "cpb_results" := UCpb cpb3 ]>
       (<[ "geneList" := UGeneList genes3 ]>
          {[ "pp_test_d2.0_pvalues" := UPvalues [cell_a; cell_b] ]})).

(** The row made from that bicluster: one cell, whose identifier splits
    into two pieces. *)
Definition comma_row : bicl_row :=
  {| gene_pairs_col := "(A,B), (A,C), (B,C)"; genes_col := "A,B,C";
     uIDs := "s1,c1"; ncells := 1; combined := 0;
     pre_cell_expansion := f_two; post_cell_expansion := fone;
     instant_average := "nan"; instant_score := "1.0" |}.

(** [bicluster_instant] on that object with [cell_threshold = 1]. *)
Definition biclustered_comma : outcome nat * world :=
  bicluster_instant (BL := one_cell_lib) 10 0%nat f_two 100 50000 true fone 1
    1 (world_of adata_comma).

(** [impute] run once, and once more on the result. *)
Definition imputed : outcome nat * world :=
  impute 0%nat (-1) tt (world_of (mk_adata ["c1"; "c2"] ∅)).
Definition imputed_twice : outcome nat * world :=
  impute 0%nat (-1) tt imputed.2.

(** An imputation that fails. *)
Definition failing_magic : MagicLib := {|
  magic_kwargs := unit;
  magic_operator := unit;
  MAGIC := fun _ _ => Ok tt;
  fit_transform := fun _ _ => Raise (LibraryError "fit_transform")
|}.

(** [run_instant] with the default file name, and with the name of a file
    that does not exist. *)
Definition ran : outcome nat * world :=
  run_instant 0%nat f_two 4 3 f_1e3 f_1e3 None true true 42
    (world_of adata_fresh).
Definition ran_missing : outcome nat * world :=
  run_instant 0%nat f_two 4 3 f_1e3 f_1e3 (Some "data.h5ad") true true 42
    (world_of adata_fresh).

End Fixture.

(** * Properties *)

(** ** The two monads *)

Lemma outcome_bind_Ok {A B} (m : outcome A) (k : A -> outcome B) (b : B) :
  m ≫= k = Ok b -> exists a, m = Ok a /\ k a = Ok b.
Proof. destruct m as [a| |]; simpl; intros E; try discriminate. eauto. Qed.

Lemma M_bind_Ok {A B} (m : M A) (k : A -> M B) (w w' : world) (b : B) :
  (m ≫= k) w = (Ok b, w') ->
  exists a w1, m w = (Ok a, w1) /\ k a w1 = (Ok b, w').
Proof.
  unfold mbind, M_bind. destruct (m w) as [[a| |] w1]; intros E;
    try discriminate. eauto.
Qed.

Ltac inv_bind H :=
  let a := fresh "a" in
  let Ha := fresh "Ha" in
  apply outcome_bind_Ok in H; destruct H as (a & Ha & H).

Tactic Notation "bind_inv" hyp(H) "as" ident(a) ident(Ha) :=
  apply outcome_bind_Ok in H; destruct H as (a & Ha & H).

Ltac inv_M H :=
  let a := fresh "a" in
  let w := fresh "w" in
  let Ha := fresh "Ha" in
  apply M_bind_Ok in H; destruct H as (a & w & Ha & H).

Lemma from_option_Ok {A} (e : exn) (o : option A) (a : A) :
  from_option e o = Ok a -> o = Some a.
Proof. destruct o; simpl; congruence. Qed.

(** ** impute *)

Section ImputeFacts.
Context `{ML : MagicLib}.

(** C8.  When [impute] returns, the object it was given holds the matrix
    of the object that the imputation returned, its [raw] holds what the
    object was before ([X] and the variables), its other fields are as
    before, every other object, the files and the log are untouched, and
    the value returned is the location that was passed in. *)
Theorem impute_copies_back (adata : nat) (n_jobs : Z) (kwargs : magic_kwargs)
    (w w' : world) (r : nat) :
  impute adata n_jobs kwargs w = (Ok r, w') ->
  exists a op X_magic,
    heap w !! adata = Some a /\
    MAGIC n_jobs kwargs = Ok op /\
    fit_transform op a = Ok X_magic /\
    r = adata /\
    heap w' = <[adata := {| X := X X_magic; raw := Some (raw_of a);
                            obs_names := obs_names a;
                            var_names := var_names a;
                            uns := uns a |}]> (heap w) /\
    files w' = files w /\ log w' = log w.
Proof.
  unfold impute, lift, get_obj, set_obj, deref. intros E.
  unfold mbind, M_bind, mret, M_ret in E. simpl in E.
  destruct (MAGIC n_jobs kwargs) as [op| |] eqn:Eop; try discriminate.
  destruct (heap w !! adata) as [a|] eqn:Ea; simpl in E; try discriminate.
  destruct (fit_transform op a) as [Xm| |] eqn:Ef; try discriminate.
  simpl in E. rewrite lookup_insert_eq in E. simpl in E.
  injection E as <- <-. exists a, op, Xm. simpl.
  rewrite insert_insert_eq. repeat split; done.
Qed.

End ImputeFacts.

Lemma impute_copies_back_witness :
  exists a op X_magic,
    heap (Fixture.world_of (Fixture.mk_adata ["c1"; "c2"] ∅)) !! 0%nat = Some a /\
    @MAGIC Fixture.magic_lib (-1) tt = Ok op /\
    fit_transform op a = Ok X_magic /\
    0%nat = 0%nat /\
    heap (impute (ML := Fixture.magic_lib) 0%nat (-1) tt
            (Fixture.world_of (Fixture.mk_adata ["c1"; "c2"] ∅))).2
      = <[0%nat := {| X := X X_magic; raw := Some (raw_of a);
                      obs_names := obs_names a; var_names := var_names a;
                      uns := uns a |}]>
          (heap (Fixture.world_of (Fixture.mk_adata ["c1"; "c2"] ∅))) /\
    files (impute (ML := Fixture.magic_lib) 0%nat (-1) tt
             (Fixture.world_of (Fixture.mk_adata ["c1"; "c2"] ∅))).2
      = files (Fixture.world_of (Fixture.mk_adata ["c1"; "c2"] ∅)) /\
    log (impute (ML := Fixture.magic_lib) 0%nat (-1) tt
           (Fixture.world_of (Fixture.mk_adata ["c1"; "c2"] ∅))).2
      = log (Fixture.world_of (Fixture.mk_adata ["c1"; "c2"] ∅)).
Proof.
  apply (impute_copies_back (ML := Fixture.magic_lib) 0%nat (-1) tt
           (Fixture.world_of (Fixture.mk_adata ["c1"; "c2"] ∅))).
  vm_compute. reflexivity.
Defined.

(** ** run_instant *)

Section LogFacts.
Context {A B : Type} (P : event -> Prop).

Lemma appends_ret (a : A) : appends P (mret a).
Proof. intros w. exists []. simpl. by rewrite app_nil_r. Qed.

Lemma appends_lift (o : outcome A) : appends P (lift o).
Proof. intros w. exists []. simpl. by rewrite app_nil_r. Qed.

Lemma appends_bind (m : M A) (k : A -> M B) :
  appends P m -> (forall a, appends P (k a)) -> appends P (m ≫= k).
Proof.
  intros Hm Hk w. destruct (Hm w) as (e1 & E1 & F1).
  unfold mbind, M_bind. destruct (m w) as [[a| |] w1]; simpl in *;
    try (exists e1; by split).
  destruct (Hk a w1) as (e2 & E2 & F2). exists (e1 ++ e2).
  rewrite E2, E1, <- List.app_assoc. split; [done | by apply Forall_app].
Qed.

Lemma appends_if (b : bool) (m1 m2 : M A) :
  appends P m1 -> appends P m2 -> appends P (if b then m1 else m2).
Proof. by destruct b. Qed.

Lemma appends_call_lib (ev : event)
    (f : gmap string AnnData -> outcome (A * gmap string AnnData)) :
  P ev -> appends P (call_lib ev f).
Proof.
  intros Hev w. exists [ev]. unfold call_lib. simpl.
  destruct (f (files w)) as [[o fs]| |]; simpl; split; auto.
Qed.

End LogFacts.

Lemma appends_get_obj (P : event -> Prop) (l : nat) : appends P (get_obj l).
Proof. intros w. exists []. simpl. by rewrite app_nil_r. Qed.

Lemma appends_write_h5ad (P : event -> Prop) (a : AnnData) (f : string) :
  P (EvWriteH5ad f) -> appends P (write_h5ad a f).
Proof. intros H w. exists [EvWriteH5ad f]. simpl. auto. Qed.

Lemma appends_read_h5ad (P : event -> Prop) (f : string) :
  P (EvReadH5ad f) -> appends P (read_h5ad f).
Proof.
  intros H w. exists [EvReadH5ad f]. unfold read_h5ad. simpl.
  destruct (files w !! f); simpl; auto.
Qed.

Lemma appends_subprocess_rm (P : event -> Prop) (f : string) :
  P (EvRm f) -> appends P (subprocess_rm f).
Proof. intros H w. exists [EvRm f]. simpl. auto. Qed.

Ltac not_event := let H := fresh in intros [? H]; discriminate H.

Ltac appends_steps :=
  repeat first
    [ apply appends_ret | apply appends_lift | apply appends_get_obj
    | apply appends_call_lib; not_event
    | apply appends_read_h5ad; not_event
    | apply appends_subprocess_rm; not_event
    | apply appends_write_h5ad; not_event
    | apply appends_if
    | apply appends_bind; [ | intros ? ] ].

Section RunInstantFacts.
Context `{IL : InstantLib}.

Lemma run_instant_tests_filename adata_st d threads nv a_cpb a_fsm filename
    sliced draw w w' f :
  run_instant_tests adata_st d threads nv a_cpb a_fsm filename sliced draw w
    = (Ok f, w') ->
  f = file_used filename draw.
Proof.
  unfold run_instant_tests. intros E.
  inv_M E. inv_M E. inv_M E. inv_M E. inv_M E. inv_M E. inv_M E. inv_M E.
  injection E as <- _.
  destruct filename as [g|]; simpl in *.
  - by injection Ha0 as <- _.
  - inv_M Ha0. by injection Ha0 as <- _.
Qed.

(** Nothing is removed and nothing is read back while the tests run. *)
Lemma run_instant_tests_log adata_st d threads nv a_cpb a_fsm filename
    sliced draw :
  appends (fun e => ~ is_rm e /\ ~ is_read e)
    (run_instant_tests adata_st d threads nv a_cpb a_fsm filename sliced draw).
Proof.
  unfold run_instant_tests.
  apply appends_bind; [apply appends_get_obj | intros a].
  apply appends_bind.
  { destruct filename; [apply appends_ret |].
    apply appends_bind; [ | intros; apply appends_ret].
    apply appends_write_h5ad. split; not_event. }
  intros f.
  repeat (apply appends_bind;
          [ first [ apply appends_lift
                  | apply appends_call_lib; split; not_event
                  | repeat apply appends_if;
                    apply appends_call_lib; split; not_event ]
          | intros ? ]).
  apply appends_ret.
Qed.

(** C3.  When a file name is given, [run_instant] never writes the data
    object: no call of [write_h5ad] is among the events it adds to the
    log, whatever the external object does. *)
Theorem run_instant_given_filename_never_writes
    (adata_st : nat) (d : float) (threads nv : Z) (a_cpb a_fsm : float)
    (f : string) (remove_file sliced : bool) (draw : Z) (w : world) :
  exists evs,
    log (run_instant adata_st d threads nv a_cpb a_fsm (Some f) remove_file
           sliced draw w).2 = log w ++ evs /\
    Forall (fun e => ~ is_write e) evs.
Proof.
  revert w. change (appends (fun e => ~ is_write e)
    (run_instant adata_st d threads nv a_cpb a_fsm (Some f) remove_file
       sliced draw)).
  unfold run_instant, run_instant_tests. appends_steps.
Qed.

(** C4.  When [run_instant] returns, the events it added to the log end
    with the read of the file that was used, followed by one [rm] of that
    file when [remove_file] is set and by nothing otherwise; no [rm]
    comes earlier.  So a removal takes place exactly when [remove_file]
    is set, it comes after the results are read back, and without it the
    file is still there. *)
Theorem run_instant_removes_iff_asked
    (adata_st : nat) (d : float) (threads nv : Z) (a_cpb a_fsm : float)
    (filename : option string) (remove_file sliced : bool) (draw : Z)
    (w w' : world) (r : nat) :
  run_instant adata_st d threads nv a_cpb a_fsm filename remove_file sliced
    draw w = (Ok r, w') ->
  exists pre,
    log w' = log w ++ pre ++ EvReadH5ad (file_used filename draw)
               :: (if remove_file then [EvRm (file_used filename draw)] else []) /\
    Forall (fun e => ~ is_rm e) pre /\
    ((exists e, e ∈ drop (length (log w)) (log w') /\ is_rm e)
       <-> remove_file = true) /\
    (if remove_file then files w' !! file_used filename draw = None
     else is_Some (files w' !! file_used filename draw)).
Proof.
  unfold run_instant. intros E. inv_M E.
  pose proof (run_instant_tests_filename _ _ _ _ _ _ _ _ _ _ _ _ Ha) as ->.
  destruct (run_instant_tests_log adata_st d threads nv a_cpb a_fsm filename
              sliced draw w) as (pre & Epre & Fpre).
  rewrite Ha in Epre. simpl in Epre.
  set (fn := file_used filename draw) in *.
  inv_M E. inv_M E. injection E as <- <-.
  unfold read_h5ad in Ha0. simpl in Ha0.
  destruct (files w0 !! fn) as [x|] eqn:Efn; try discriminate.
  injection Ha0 as <- <-.
  assert (Fpre' : Forall (fun e => ~ is_rm e) pre).
  { eapply Forall_impl; [exact Fpre | by intros ? []]. }
  exists pre. destruct remove_file; simpl in Ha1; injection Ha1 as _ <-; simpl;
    rewrite Epre, <- !List.app_assoc; simpl.
  - repeat split; auto.
    + intros _. rewrite drop_app_length. exists (EvRm fn). split.
      * rewrite elem_of_app. right. rewrite !elem_of_cons. auto.
      * by exists fn.
    + apply lookup_delete_eq.
  - repeat split; auto.
    + rewrite drop_app_length. intros (e & Hin & Hrm).
      rewrite elem_of_app in Hin. destruct Hin as [Hin|Hin].
      * rewrite Forall_forall in Fpre'. destruct (Fpre' e Hin Hrm).
      * rewrite list_elem_of_singleton in Hin. subst e.
        destruct Hrm as [? Hrm]. discriminate Hrm.
    + discriminate.
Qed.

End RunInstantFacts.

(** With the default file name and [remove_file] set, the temporary file is
    written, loaded, read back and removed. *)
Example run_instant_default_log :
  log (run_instant (IL := Fixture.instant_lib) 0%nat Fixture.f_two 4 3
         Fixture.f_1e3 Fixture.f_1e3 None true true 42
         (Fixture.world_of Fixture.adata_fresh)).2
  = [ EvWriteH5ad ".cellSP_st_42.h5ad"; EvLoadPreprocessed ".cellSP_st_42.h5ad";
      EvProximalPairs PP2D; EvGlobalColocalization; EvFsm;
      EvReadH5ad ".cellSP_st_42.h5ad"; EvRm ".cellSP_st_42.h5ad" ].
Proof. vm_compute. reflexivity. Qed.

(** With a file name given and no such file, nothing is written and the
    external object fails to load it. *)
Example run_instant_given_filename_example :
  run_instant (IL := Fixture.instant_lib) 0%nat Fixture.f_two 4 3
    Fixture.f_1e3 Fixture.f_1e3 (Some "data.h5ad") true true 42
    (Fixture.world_of Fixture.adata_fresh)
  = (Raise (FileNotFoundError "data.h5ad"),
     {| heap := heap (Fixture.world_of Fixture.adata_fresh);
        files := ∅;
        log := [EvLoadPreprocessed "data.h5ad"] |}).
Proof. vm_compute. reflexivity. Qed.

Lemma run_instant_removes_iff_asked_witness :
  exists pre,
    log (run_instant (IL := Fixture.instant_lib) 0%nat Fixture.f_two 4 3
           Fixture.f_1e3 Fixture.f_1e3 None false true 42
           (Fixture.world_of Fixture.adata_fresh)).2
    = log (Fixture.world_of Fixture.adata_fresh) ++ pre ++
        EvReadH5ad (file_used None 42) :: (if false then [EvRm (file_used None 42)] else []) /\
    Forall (fun e => ~ is_rm e) pre /\
    ((exists e,
        e ∈ drop (length (log (Fixture.world_of Fixture.adata_fresh)))
              (log (run_instant (IL := Fixture.instant_lib) 0%nat Fixture.f_two
                      4 3 Fixture.f_1e3 Fixture.f_1e3 None false true 42
                      (Fixture.world_of Fixture.adata_fresh)).2) /\ is_rm e)
       <-> false = true) /\
    (if false
     then files (run_instant (IL := Fixture.instant_lib) 0%nat Fixture.f_two
                   4 3 Fixture.f_1e3 Fixture.f_1e3 None false true 42
                   (Fixture.world_of Fixture.adata_fresh)).2
            !! file_used None 42 = None
     else is_Some (files (run_instant (IL := Fixture.instant_lib) 0%nat
                            Fixture.f_two 4 3 Fixture.f_1e3 Fixture.f_1e3 None
                            false true 42
                            (Fixture.world_of Fixture.adata_fresh)).2
                     !! file_used None 42)).
Proof.
  apply (run_instant_removes_iff_asked (IL := Fixture.instant_lib) 0%nat
           Fixture.f_two 4 3 Fixture.f_1e3 Fixture.f_1e3 None false true 42
           (Fixture.world_of Fixture.adata_fresh) _ 1%nat).
  vm_compute. reflexivity.
Defined.

(** ** Gene positions *)

Lemma index_first_position (x : string) (l : list string) (k : nat) :
  Py.index x l = Some k -> first_position l x k.
Proof.
  revert k. induction l as [|y ys IH]; simpl; intros k E; [discriminate|].
  destruct (String.eqb_spec y x) as [->|Hne].
  - injection E as <-. split; [done | intros j Hj; lia].
  - destruct (Py.index x ys) as [k'|]; simpl in E; [|discriminate].
    injection E as <-. destruct (IH k' eq_refl) as [H1 H2]. split; [done|].
    intros [|j] Hj; simpl; [congruence | apply H2; lia].
Qed.

Lemma index_exn_first_position (x : string) (l : list string) (k : nat) :
  Py.index_exn x l = Ok k -> first_position l x k.
Proof.
  unfold Py.index_exn. intros E. apply from_option_Ok in E.
  by apply index_first_position.
Qed.

Lemma map_outcome_Forall2 {A B} (f : A -> outcome B) (l : list A) (r : list B) :
  map_outcome f l = Ok r -> Forall2 (fun x y => f x = Ok y) l r.
Proof.
  revert r. induction l as [|x xs IH]; simpl; intros r E.
  - injection E as <-. constructor.
  - inv_bind E. inv_bind E. injection E as <-. constructor; auto.
Qed.

(** C6.  The indices with which the per-cell p-value matrices are read
    are positions in [uns["geneList"]]: in [analyse_fsm] the index
    computed for each name of the clique, and in [bicluster_instant] the
    two indices computed for a gene pair, are the first position of that
    name in the gene list. *)
Theorem gene_indexes_follow_geneList (a : AnnData) (vertices : string)
    (idx : list nat) (geneList : list string) (i : cpb_row) (index1 index2 : nat) :
  gene_indexes a vertices = Ok idx ->
  uns a !! "geneList" = Some (UGeneList geneList) ->
  pair_indexes geneList i = Ok (index1, index2) ->
  Forall2 (fun name k => first_position geneList name k)
    (Py.split "," vertices) idx /\
  first_position geneList (gene_id1 i) index1 /\
  first_position geneList (gene_id2 i) index2.
Proof.
  intros Hidx Hgl Hpair. split; [|].
  - unfold gene_indexes in Hidx. apply map_outcome_Forall2 in Hidx.
    eapply Forall2_impl; [exact Hidx|]. intros name k E. simpl in E.
    unfold uns_get in E. rewrite Hgl in E. simpl in E.
    by apply index_exn_first_position.
  - unfold pair_indexes in Hpair. inv_bind Hpair. inv_bind Hpair.
    injection Hpair as <- <-.
    split; by apply index_exn_first_position.
Qed.

Lemma gene_indexes_follow_geneList_witness :
  Forall2 (fun name k => first_position Fixture.genes3 name k)
    (Py.split "," "C,A") [2; 0]%nat /\
  first_position Fixture.genes3 "B" 1 /\
  first_position Fixture.genes3 "C" 2.
Proof.
  apply (gene_indexes_follow_geneList
           (Fixture.adata_tested []) "C,A" [2; 0]%nat Fixture.genes3
           {| g1g2 := "B, C"; gene_id1 := "B"; gene_id2 := "C";
              p_val_cond := fone |} 1%nat 2%nat);
    vm_compute; reflexivity.
Defined.

(** ** The assertion of the p-value extraction *)

Lemma SFeqb_same (v : float) : SFeqb v v = negb (is_nan v).
Proof.
  destruct v as [s|s| |s m e]; simpl; try reflexivity.
  - unfold SFeqb; simpl. by destruct s.
  - unfold SFeqb; simpl. rewrite Z.compare_refl.
    change (Pos.compare_cont Eq m m) with (Pos.compare m m).
    rewrite Pos.compare_refl. by destruct s.
Qed.

(** C2.  The assertion reads one entry of the cell matrix twice, with
    [cell[index1, index2]] and with [cell[index1][index2]], and compares
    the two readings: whether it passes depends on the entry at
    [(index1, index2)] alone.  It raises [IndexError] when there is no
    such entry, fails when the entry is NaN, and passes otherwise; the
    entry at [(index2, index1)] is not looked at. *)
Theorem assert_entry_reads_one_entry (cell : matrix) (index1 index2 : nat) :
  assert_entry cell index1 index2 =
    match mat_get cell index1 index2 with
    | Ok v => if is_nan v then Raise AssertionError else Ok tt
    | Raise e => Raise e
    | OutOfFuel => OutOfFuel
    end.
Proof.
  unfold assert_entry, mat_get_tuple, mat_get. simpl.
  destruct (cell !! index1) as [row|]; simpl; [|reflexivity].
  destruct (row !! index2) as [v|]; simpl; [|reflexivity].
  rewrite SFeqb_same. by destruct (is_nan v).
Qed.

(** The assertion passes on a matrix that is not symmetric at the pair it
    reads, and the extraction goes through with it; it fails on a NaN. *)
Lemma assertion_is_not_a_symmetry_check :
  assert_entry Fixture.cell_a 0 1 = Ok tt /\
  mat_get Fixture.cell_a 0 1 = Ok Fixture.f_1e3 /\
  mat_get Fixture.cell_a 1 0 = Ok Fixture.f_1e1 /\
  SFeqb Fixture.f_1e3 Fixture.f_1e1 = false /\
  (exists r, extract_pvalues (RT := Fixture.runtime)
               (Fixture.adata_tested [Fixture.cell_a]) Fixture.f_two
               Fixture.f_1e2 = Ok r) /\
  assert_entry Fixture.cell_nan 0 1 = Raise AssertionError.
Proof.
  repeat split; try (vm_compute; reflexivity).
  eexists. vm_compute. reflexivity.
Qed.

(** ** The validation check of bicluster_instant *)

Section ValidationFacts.
Context `{RT : PyRuntime} `{BL : BiclusterLib}.

Lemma require_cpb_results_missing (a : AnnData) (alpha : float) :
  uns a !! "cpb_results" = None <->
  require_cpb_results a alpha = Raise (ValueError cpb_missing).
Proof.
  unfold require_cpb_results. destruct (uns a !! "cpb_results") as [v|].
  - split; [discriminate|]. destruct v; simpl; discriminate.
  - done.
Qed.

(** C1.  For an object [a] at [adata_st]: the validation check raises
    its [ValueError] exactly when ["cpb_results"] is not a key of
    [a.uns]; in that case [bicluster_instant] raises this error and
    leaves the world, hence the object, as it was; and whenever
    [bicluster_instant] raises, whatever the exception, the world is as
    it was. *)
Theorem bicluster_instant_validation (fuel : nat) (adata_st : nat)
    (distance_threshold : float) (num_biclusters randomized_searches : Z)
    (scale_data : bool) (alpha : float) (cell_threshold threads : Z)
    (w : world) (a : AnnData) :
  heap w !! adata_st = Some a ->
  (uns a !! "cpb_results" = None <->
     require_cpb_results a alpha = Raise (ValueError cpb_missing)) /\
  (uns a !! "cpb_results" = None ->
     bicluster_instant fuel adata_st distance_threshold num_biclusters
       randomized_searches scale_data alpha cell_threshold threads w
     = (Raise (ValueError cpb_missing), w)) /\
  (forall e w',
     bicluster_instant fuel adata_st distance_threshold num_biclusters
       randomized_searches scale_data alpha cell_threshold threads w
     = (Raise e, w') -> w' = w).
Proof.
  intros Ha. split; [apply require_cpb_results_missing|].
  assert (Ht : uns a !! "cpb_results" = None ->
               bicluster_table fuel a distance_threshold num_biclusters
                 randomized_searches scale_data alpha cell_threshold threads
               = Raise (ValueError cpb_missing)).
  { intros Hno. unfold bicluster_table, extract_pvalues.
    apply require_cpb_results_missing with (alpha := alpha) in Hno.
    rewrite Hno. reflexivity. }
  unfold bicluster_instant, get_obj, set_obj, lift, deref, mbind, M_bind,
    mret, M_ret.
  rewrite Ha. cbn [from_option].
  set (t := bicluster_table fuel a distance_threshold num_biclusters
              randomized_searches scale_data alpha cell_threshold threads)
    in *.
  split.
  - intros Hno. rewrite (Ht Hno). reflexivity.
  - intros e w'. destruct t as [r| |]; intros E; congruence.
Qed.

End ValidationFacts.

Lemma bicluster_instant_validation_witness :
  heap (Fixture.world_of Fixture.adata_fresh) !! 0%nat = Some Fixture.adata_fresh /\
  (uns Fixture.adata_fresh !! "cpb_results" = None <->
     require_cpb_results Fixture.adata_fresh Fixture.f_1e3
     = Raise (ValueError cpb_missing)) /\
  (uns Fixture.adata_fresh !! "cpb_results" = None ->
     bicluster_instant (RT := Fixture.runtime) (BL := Fixture.bicluster_lib)
       10 0%nat Fixture.f_two 100 50000 true Fixture.f_1e3 5 1
       (Fixture.world_of Fixture.adata_fresh)
     = (Raise (ValueError cpb_missing), Fixture.world_of Fixture.adata_fresh)) /\
  (forall e w',
     bicluster_instant (RT := Fixture.runtime) (BL := Fixture.bicluster_lib)
       10 0%nat Fixture.f_two 100 50000 true Fixture.f_1e3 5 1
       (Fixture.world_of Fixture.adata_fresh)
     = (Raise e, w') -> w' = Fixture.world_of Fixture.adata_fresh).
Proof.
  split; [vm_compute; reflexivity|].
  apply (bicluster_instant_validation (RT := Fixture.runtime)
           (BL := Fixture.bicluster_lib) 10 0%nat Fixture.f_two 100 50000 true
           Fixture.f_1e3 5 1 (Fixture.world_of Fixture.adata_fresh)
           Fixture.adata_fresh).
  vm_compute. reflexivity.
Defined.

(** The CPB table is present and [bicluster_instant] raises all the same:
    the p-value tensors are looked up next and are not there. *)
Lemma bicluster_instant_raises_with_cpb_results :
  is_Some (uns Fixture.adata_cpb_only !! "cpb_results") /\
  bicluster_instant (RT := Fixture.runtime) (BL := Fixture.bicluster_lib)
    10 0%nat Fixture.f_two 100 50000 true Fixture.f_1e3 5 1
    (Fixture.world_of Fixture.adata_cpb_only)
  = (Raise (KeyError "pp_test_d2.0_pvalues"),
     Fixture.world_of Fixture.adata_cpb_only).
Proof.
  split; [eexists; vm_compute; reflexivity | vm_compute; reflexivity].
Qed.

(** ** Loops that collect rows *)

Lemma for_enum_ext {A St} (f g : nat -> A -> St -> outcome St) (n : nat)
    (l : list A) (s : St) :
  (forall k x t, f k x t = g k x t) -> for_enum f n l s = for_enum g n l s.
Proof.
  intros E. revert n s. induction l as [|x xs IH]; intros n s; simpl; [done|].
  rewrite E. destruct (g n x s); simpl; auto.
Qed.

(** A loop whose body appends the rows [f n x] to the accumulator returns
    the accumulator followed by those rows, in order. *)
Lemma for_enum_collect {A B} (f : nat -> A -> outcome (list B)) (n : nat)
    (l : list A) (acc r : list B) :
  for_enum (fun k x acc => ys ← f k x; Ok (acc ++ ys)) n l acc = Ok r ->
  exists yss,
    Forall2 (fun kx ys => f kx.1 kx.2 = Ok ys) (zip (seq n (length l)) l) yss /\
    r = acc ++ concat yss.
Proof.
  revert n acc. induction l as [|x xs IH]; intros n acc; simpl; intros E.
  - injection E as <-. exists []. split; [constructor | by rewrite app_nil_r].
  - inv_bind E. inv_bind Ha. injection Ha as <-.
    destruct (IH _ _ E) as (yss & F & ->). exists (a0 :: yss).
    split; [by constructor|]. simpl. by rewrite <- List.app_assoc.
Qed.

(** ** The bicluster table *)

Section BiclusterFacts.
Context `{RT : PyRuntime} `{BL : BiclusterLib}.

Lemma wide_rows_collected gp uids pm pms cr clc rlc (n : nat)
    (bs : list Bicluster) (yss : list (list bicl_row)) :
  Forall2
    (fun (kx : nat * Bicluster) ys =>
       (if wide kx.2
        then r ← bicluster_row gp uids pm pms cr clc rlc kx.2; Ok [r]
        else Ok []) = Ok ys)
    (zip (seq n (length bs)) bs) yss ->
  Forall2 (fun b r => (2 < length (cols b))%nat /\
                      bicluster_row gp uids pm pms cr clc rlc b = Ok r)
    (List.filter wide bs) (concat yss).
Proof.
  revert n yss. induction bs as [|b bs IH]; intros n yss F; simpl in *.
  - inversion F; subst. constructor.
  - inversion F as [|? ys ? yss' Hb F']; subst. simpl in *.
    destruct (wide b) eqn:Hw.
    + inv_bind Hb. injection Hb as <-. simpl. constructor; eauto.
      split; [|done]. unfold wide in Hw. by apply bool_decide_eq_true in Hw.
    + injection Hb as <-. simpl. eauto.
Qed.

Lemma initial_table_wide_rows gp uids pm pms cr clc rlc (bs : list Bicluster)
    (t : list bicl_row) :
  initial_table gp uids pm pms cr clc rlc bs = Ok t ->
  Forall2 (fun b r => (2 < length (cols b))%nat /\
                      bicluster_row gp uids pm pms cr clc rlc b = Ok r)
    (List.filter wide bs) t.
Proof.
  unfold initial_table. intros E.
  rewrite (for_enum_ext _
    (fun k x acc =>
       ys ← (fun (_ : nat) b =>
               if wide b then
                 r ← bicluster_row gp uids pm pms cr clc rlc b; Ok [r]
               else Ok []) k x;
       Ok (acc ++ ys))) in E.
  2:{ intros k b acc. unfold wide. simpl. case_decide.
      - rewrite bool_decide_eq_true_2 by done.
        destruct (bicluster_row _ _ _ _ _ _ _ b); reflexivity.
      - rewrite bool_decide_eq_false_2 by done. simpl.
        by rewrite app_nil_r. }
  apply for_enum_collect in E. destruct E as (yss & F & ->). simpl.
  by eapply wide_rows_collected.
Qed.

Lemma bicluster_row_fields gp uids pm pms cr clc rlc (b : Bicluster)
    (r : bicl_row) :
  bicluster_row gp uids pm pms cr clc rlc b = Ok r ->
  pre_cell_expansion r = score b /\ combined r = 0%Z /\
  exists rows' cells,
    gather uids rows' = Ok cells /\
    uIDs r = Py.join "," cells /\ ncells r = length cells.
Proof.
  unfold bicluster_row. intros E.
  bind_inv E as pairs Hpairs. bind_inv E as rows' Hrows.
  bind_inv E as cells Hcells. bind_inv E as sc Hsc. bind_inv E as sub Hsub.
  injection E as <-. simpl. eauto 10.
Qed.

Lemma split_without_sep (sep : ascii) (s : string) :
  has_char sep s = false -> Py.split sep s = [s].
Proof.
  induction s as [|c s IH]; simpl; [done|].
  intros H. apply orb_false_iff in H as [-> H]. by rewrite (IH H).
Qed.

Lemma split_append (sep : ascii) (x rest : string) :
  has_char sep x = false ->
  Py.split sep (x +:+ String sep rest) = x :: Py.split sep rest.
Proof.
  induction x as [|c x IH]; simpl.
  - intros _. by rewrite Ascii.eqb_refl.
  - intros H. apply orb_false_iff in H as [-> H]. by rewrite (IH H).
Qed.

Lemma split_join (l : list string) :
  l <> [] -> Forall (fun x => has_char "," x = false) l ->
  Py.split "," (Py.join "," l) = l.
Proof.
  induction l as [|x [|y ys] IH]; [done | |]; intros _ H.
  - inversion H; subst. simpl. by apply split_without_sep.
  - inversion H as [|? ? Hx Hys]; subst.
    change (Py.join "," (x :: y :: ys))
      with (x +:+ String "," (Py.join "," (y :: ys))).
    rewrite split_append by done. by rewrite IH.
Qed.

Lemma gather_elem {A} (a : list A) (idx : list nat) (l : list A) :
  gather a idx = Ok l -> Forall (fun x => x ∈ a) l.
Proof.
  unfold gather. intros E. apply map_outcome_Forall2 in E.
  induction E as [|i x idx l Hx _ IH]; constructor; [|done].
  apply from_option_Ok in Hx. by eapply list_elem_of_lookup_2.
Qed.

(** X16.  For a row made from a bicluster with at least one cell, when no
    cell identifier holds a comma, the number of comma-separated
    identifiers in [uIDs], which the final filter counts, is the number of
    cells in the column [#cells]. *)
Lemma uid_count_of_cells gp uids pm pms cr clc rlc (b : Bicluster)
    (r : bicl_row) :
  bicluster_row gp uids pm pms cr clc rlc b = Ok r ->
  Forall (fun x => has_char "," x = false) uids ->
  ncells r <> 0%nat ->
  uid_count r = Z.of_nat (ncells r).
Proof.
  intros E Hids Hn.
  apply bicluster_row_fields in E as (_ & _ & rows' & cells & Hg & Hu & Hlen).
  unfold uid_count. rewrite Hu, Hlen. f_equal. f_equal.
  apply split_join.
  - intros ->. by rewrite Hlen in Hn.
  - apply gather_elem in Hg. rewrite Forall_forall in Hids.
    eapply Forall_impl; [exact Hg|]. intros x Hx. by apply Hids.
Qed.

(** The loop returns only from an iteration that leaves the number of
    rows as it was. *)
Lemma expand_loop_exit (fuel : nat) expand (df : list bicl_row)
    (si : list score_issue) (r : list bicl_row * list score_issue) :
  expand_loop fuel expand df si = Ok r ->
  exists df' si', expand df' si' = Ok r /\ length r.1 = length df'.
Proof.
  revert df si. induction fuel as [|fuel IH]; intros df si; simpl;
    [discriminate|]. intros E. inv_bind E. case_decide.
  - injection E as <-. eauto.
  - eauto.
Qed.

Lemma keep_large_spec (cell_threshold : Z) (df : list bicl_row) (r : bicl_row) :
  r ∈ keep_large cell_threshold df <->
  r ∈ df /\ (cell_threshold < uid_count r)%Z.
Proof.
  unfold keep_large. rewrite !list_elem_of_In, filter_In.
  by rewrite Z.ltb_lt.
Qed.

(** C10.  When [bicluster_instant] returns: the rows with which the
    table starts are made, in order, from the returned biclusters that
    have more than two columns, and from no other; and the table stored
    under ["instant_biclustering"] holds those rows of the expanded table
    whose [uIDs] splits at the commas into more than [cell_threshold]
    pieces, so that a row with exactly [cell_threshold] pieces is not in
    it.  The number of pieces is the number of cells of the column
    [#cells] for a row made from a bicluster with at least one cell when
    no cell identifier holds a comma; a row of the expanded table for
    which the two numbers agree is kept exactly when it has more than
    [cell_threshold] cells. *)
Theorem bicluster_instant_admission (fuel : nat) (adata_st : nat)
    (distance_threshold : float) (num_biclusters randomized_searches : Z)
    (scale_data : bool) (alpha : float) (cell_threshold threads : Z)
    (w w' : world) (a : AnnData) (l : nat) :
  heap w !! adata_st = Some a ->
  bicluster_instant fuel adata_st distance_threshold num_biclusters
    randomized_searches scale_data alpha cell_threshold threads w
  = (Ok l, w') ->
  exists pval_matrix pval_matrix_scaled col_range col_log_combs
         row_log_combs gene_pairs biclusters df_initial df_expanded si,
    LargeAverageSubmatrices_run num_biclusters randomized_searches
      scale_data threads pval_matrix = Ok biclusters /\
    Forall2 (fun b r => (2 < length (cols b))%nat /\
                        pre_cell_expansion r = score b /\
                        (Forall (fun x => has_char "," x = false) (obs_names a) ->
                         ncells r <> 0%nat ->
                         uid_count r = Z.of_nat (ncells r)))
      (List.filter wide biclusters) df_initial /\
    expand_loop fuel
      (expansion_step pval_matrix pval_matrix_scaled (obs_names a)
         col_range col_log_combs row_log_combs gene_pairs)
      df_initial [] = Ok (df_expanded, si) /\
    l = adata_st /\
    heap w' = <[adata_st := set_uns "instant_biclustering"
                  (UBiclustering (keep_large cell_threshold df_expanded)) a]>
                (heap w) /\
    (forall r, r ∈ keep_large cell_threshold df_expanded <->
               r ∈ df_expanded /\ (cell_threshold < uid_count r)%Z) /\
    (forall r, uid_count r = cell_threshold ->
               r ∉ keep_large cell_threshold df_expanded) /\
    (forall r, r ∈ df_expanded -> uid_count r = Z.of_nat (ncells r) ->
               (r ∈ keep_large cell_threshold df_expanded <->
                (cell_threshold < Z.of_nat (ncells r))%Z)).
Proof.
  intros Ha E.
  unfold bicluster_instant, get_obj, set_obj, lift, deref, mbind, M_bind,
    mret, M_ret in E.
  rewrite Ha in E. cbn [from_option] in E.
  destruct (bicluster_table _ _ _ _ _ _ _ _ _) as [t| |] eqn:Et;
    try discriminate.
  injection E as <- <-. unfold bicluster_table in Et.
  inv_bind Et. destruct a0 as [[cpb pm] pg]. simpl in Et.
  inv_bind Et. inv_bind Et. inv_bind Et. inv_bind Et. inv_bind Et.
  inv_bind Et. injection Et as <-. destruct a5 as [df_expanded si].
  eexists pm, _, _, _, _, _, a1, a4, df_expanded, si.
  split; [exact Ha2|]. split.
  { apply initial_table_wide_rows in Ha5.
    eapply Forall2_impl; [exact Ha5|]. intros b r [Hw Hr].
    apply bicluster_row_fields in Hr
      as (Hs & _ & rows' & cells & Hg & Hu & Hlen).
    split; [done|]. split; [done|]. intros Hids Hn.
    unfold uid_count. rewrite Hu, Hlen. f_equal. f_equal.
    apply split_join.
    - intros ->. by rewrite Hlen in Hn.
    - apply gather_elem in Hg. rewrite Forall_forall in Hids.
      eapply Forall_impl; [exact Hg|]. intros x Hx. by apply Hids. }
  split; [exact Ha6|]. split; [done|]. split; [done|].
  split; [intros r; apply keep_large_spec|]. split.
  - intros r Hr Hin. apply keep_large_spec in Hin. lia.
  - intros r Hin Hcount. rewrite keep_large_spec, Hcount. tauto.
Qed.

End BiclusterFacts.

Lemma bicluster_instant_admission_witness :
  exists pval_matrix pval_matrix_scaled col_range col_log_combs
         row_log_combs gene_pairs biclusters df_initial df_expanded si,
    @LargeAverageSubmatrices_run Fixture.bicluster_lib 100 50000 true 1
      pval_matrix = Ok biclusters /\
    Forall2 (fun b r => (2 < length (cols b))%nat /\
                        pre_cell_expansion r = score b /\
                        (Forall (fun x => has_char "," x = false)
                           (obs_names (Fixture.adata_tested
                                         [Fixture.cell_a; Fixture.cell_b])) ->
                         ncells r <> 0%nat ->
                         uid_count r = Z.of_nat (ncells r)))
      (List.filter wide biclusters) df_initial /\
    expand_loop (BL := Fixture.bicluster_lib) 10
      (expansion_step pval_matrix pval_matrix_scaled
         (obs_names (Fixture.adata_tested [Fixture.cell_a; Fixture.cell_b]))
         col_range col_log_combs row_log_combs gene_pairs)
      df_initial [] = Ok (df_expanded, si) /\
    0%nat = 0%nat /\
    heap Fixture.biclustered.2
    = <[0%nat := set_uns "instant_biclustering"
                   (UBiclustering (keep_large 1 df_expanded))
                   (Fixture.adata_tested [Fixture.cell_a; Fixture.cell_b])]>
        (heap Fixture.w_tested) /\
    (forall r, r ∈ keep_large 1 df_expanded <->
               r ∈ df_expanded /\ (1 < uid_count r)%Z) /\
    (forall r, uid_count r = 1%Z -> r ∉ keep_large 1 df_expanded) /\
    (forall r, r ∈ df_expanded -> uid_count r = Z.of_nat (ncells r) ->
               (r ∈ keep_large 1 df_expanded <-> (1 < Z.of_nat (ncells r))%Z)).
Proof.
  apply (bicluster_instant_admission (RT := Fixture.runtime)
           (BL := Fixture.bicluster_lib) 10 0%nat Fixture.f_two 100 50000 true
           fone 1 1 Fixture.w_tested Fixture.biclustered.2
           (Fixture.adata_tested [Fixture.cell_a; Fixture.cell_b]) 0%nat).
  - vm_compute. reflexivity.
  - vm_compute. reflexivity.
Defined.

(** The table that run stores: the bicluster with three columns, with the
    two cells it covers. *)
Example bicluster_instant_stores :
  (uns <$> heap Fixture.biclustered.2 !! 0%nat) ≫= (.!! "instant_biclustering")
  = Some (UBiclustering
            [ {| gene_pairs_col := "(A,B), (A,C), (B,C)"; genes_col := "A,B,C";
                 uIDs := "c1,c2"; ncells := 2; combined := 0;
                 pre_cell_expansion := Fixture.f_two;
                 post_cell_expansion := fone;
                 instant_average := "nan"; instant_score := "1.0" |} ]).
Proof. vm_compute. reflexivity. Qed.

(** A bicluster of one cell, with [cell_threshold = 1]: the identifier of
    the cell holds a comma, [uIDs] splits into two pieces, and the row is in
    the stored table although it has exactly [cell_threshold] cells. *)
Lemma bicluster_instant_keeps_threshold_row :
  Fixture.biclustered_comma.1 = Ok 0%nat /\
  (uns <$> heap Fixture.biclustered_comma.2 !! 0%nat)
    ≫= (.!! "instant_biclustering")
  = Some (UBiclustering [Fixture.comma_row]) /\
  Z.of_nat (ncells Fixture.comma_row) = 1%Z /\
  uid_count Fixture.comma_row = 2%Z.
Proof. repeat split; vm_compute; reflexivity. Qed.

(** ** The expansion loop *)

Section ExpansionFacts.
Context `{BL : BiclusterLib}.
Variable expand : list bicl_row -> list score_issue ->
                  outcome (list bicl_row * list score_issue).



End ExpansionFacts.



(** Two rows are added, the third call adds none, and the loop stops. *)
Example expand_loop_add_until_three :
  expand_loop (BL := Fixture.bicluster_lib) 10 Fixture.add_until_three
    [Fixture.a_row "c1"] []
  = Ok ([Fixture.a_row "c1"; Fixture.a_row "c9"; Fixture.a_row "c9"], []) /\
  expand_loop (BL := Fixture.bicluster_lib) 2 Fixture.add_until_three
    [Fixture.a_row "c1"] [] = OutOfFuel.
Proof. split; vm_compute; reflexivity. Qed.

(** ** The matrix handed to the biclustering *)

Lemma mat_get_entry (m : matrix) (r c : nat) (v : float) :
  mat_get m r c = Ok v <-> entry m r c = Some v.
Proof.
  unfold mat_get, entry. destruct (m !! r) as [row|]; simpl; [|done].
  destruct (row !! c); simpl; split; congruence.
Qed.

Lemma mat_set_spec (m m' : matrix) (i j : nat) (v : float) :
  mat_set m i j v = Ok m' ->
  entry m' i j = Some v /\
  (forall r c, r <> i \/ c <> j -> entry m' r c = entry m r c) /\
  length <$> m' = length <$> m.
Proof.
  unfold mat_set, entry. destruct (m !! i) as [row|] eqn:Hi; [|discriminate].
  case_decide; [|discriminate]. intros [= <-].
  pose proof (lookup_lt_Some _ _ _ Hi) as Hlt. split; [|split].
  - rewrite list_lookup_insert_eq by done. simpl.
    by rewrite list_lookup_insert_eq.
  - intros r c Hrc. destruct (decide (r = i)) as [->|Hr].
    + rewrite list_lookup_insert_eq by done. rewrite Hi. simpl.
      destruct Hrc as [?|Hc]; [done|]. by rewrite list_lookup_insert_ne.
    + by rewrite list_lookup_insert_ne.
  - rewrite list_fmap_insert, length_insert. apply list_insert_id.
    by rewrite list_lookup_fmap, Hi.
Qed.

Lemma entry_np_ones (r c i j : nat) :
  (i < r)%nat -> (j < c)%nat -> entry (np_ones r c) i j = Some fone.
Proof.
  intros Hi Hj. unfold entry, np_ones.
  rewrite lookup_replicate_2 by done. simpl. by rewrite lookup_replicate_2.
Qed.

Section MatrixFacts.
Context `{RT : PyRuntime}.

Lemma entry_neg_log10 (m : matrix) (r c : nat) :
  entry (neg_log10 m) r c = (fun v => SFopp (np_log10 v)) <$> entry m r c.
Proof.
  unfold entry, neg_log10. rewrite list_lookup_fmap.
  destruct (m !! r) as [row|]; simpl; [|done]. by rewrite list_lookup_fmap.
Qed.

(** One column: the cells at positions [k], [k + 1], ... are written to
    the rows of the same number, every other entry stays. *)
Lemma fill_column_spec (index1 index2 n : nat) (cells : list matrix) :
  forall (k : nat) (m m' : matrix),
    for_enum
      (fun pos cell pval_matrix =>
         _ ← assert_entry cell index1 index2;
         v ← mat_get cell index1 index2;
         mat_set pval_matrix pos n v)
      k cells m = Ok m' ->
    (forall j cell, cells !! j = Some cell ->
       exists v, mat_get cell index1 index2 = Ok v /\
                 entry m' (k + j) n = Some v) /\
    (forall r c, c <> n \/ (r < k)%nat \/ (k + length cells <= r)%nat ->
       entry m' r c = entry m r c) /\
    length <$> m' = length <$> m.
Proof.
  induction cells as [|cell cells IH]; intros k m m'; simpl; intros E.
  - injection E as <-. split; [intros j ? Hj; discriminate Hj | done].
  - inv_bind E. inv_bind Ha. inv_bind Ha.
    destruct (mat_set_spec _ _ _ _ _ Ha) as (Hset & Hother & Hshape).
    destruct (IH _ _ _ E) as (Hcells & Hkeep & Hshape').
    split; [|split].
    + intros [|j] c Hc; simpl in Hc.
      * injection Hc as <-. exists a1. split; [done|].
        rewrite Nat.add_0_r. rewrite Hkeep by lia. done.
      * destruct (Hcells j c Hc) as (v & Hv & He). exists v.
        split; [done|]. by rewrite <- Nat.add_succ_comm.
    + intros r c Hrc. rewrite Hkeep by lia. apply Hother. lia.
    + congruence.
Qed.

(** All columns: column [k + j] holds, for every cell of the tensor, the
    entry of that cell at the positions of the two genes of pair [j]. *)
Lemma fill_matrix_spec (geneList : list string) (pp_pvalues : list matrix)
    (cpb : list cpb_row) :
  forall (k : nat) (st st' : matrix * list string),
    for_enum
      (fun n i st =>
         ix ← pair_indexes geneList i;
         let pair_genes := st.2 ++ [gene_id1 i; gene_id2 i] in
         pval_matrix ← fill_column pp_pvalues ix.1 ix.2 n st.1;
         Ok (pval_matrix, pair_genes))
      k cpb st = Ok st' ->
    (forall j i, cpb !! j = Some i ->
       exists index1 index2,
         pair_indexes geneList i = Ok (index1, index2) /\
         forall pos cell, pp_pvalues !! pos = Some cell ->
           exists v, mat_get cell index1 index2 = Ok v /\
                     entry st'.1 pos (k + j) = Some v) /\
    (forall r c,
       (c < k)%nat \/ (k + length cpb <= c)%nat \/
       (length pp_pvalues <= r)%nat ->
       entry st'.1 r c = entry st.1 r c) /\
    length <$> st'.1 = length <$> st.1.
Proof.
  induction cpb as [|i cpb IH]; intros k st st'; simpl; intros E.
  - injection E as <-. split; [intros j ? Hj; discriminate Hj | done].
  - inv_bind E. inv_bind Ha. inv_bind Ha. injection Ha as <-.
    destruct a0 as [index1 index2]. simpl in Ha1.
    destruct (fill_column_spec _ _ _ _ _ _ _ Ha1) as (Hcells & Hkeep & Hshape).
    destruct (IH _ _ _ E) as (Hcols & Hkeep' & Hshape'). simpl in *.
    split; [|split].
    + intros [|j] i' Hi'; simpl in Hi'.
      * injection Hi' as <-. exists index1, index2. split; [done|].
        intros pos cell Hcell. destruct (Hcells pos cell Hcell) as (v & Hv & He).
        exists v. split; [done|]. rewrite Nat.add_0_r.
        rewrite Hkeep' by lia. exact He.
      * destruct (Hcols j i' Hi') as (i1 & i2 & Hix & Hall).
        exists i1, i2. split; [done|]. intros pos cell Hcell.
        destruct (Hall pos cell Hcell) as (v & Hv & He). exists v.
        split; [done|]. by rewrite <- Nat.add_succ_comm.
    + intros r c Hrc. rewrite Hkeep' by lia. apply Hkeep. lia.
    + congruence.
Qed.

End MatrixFacts.

Section ExtractionFacts.
Context `{RT : PyRuntime} `{BL : BiclusterLib}.

Lemma uns_get_as_pvalues (a : AnnData) (k : string) (pp : list matrix) :
  uns_get a k ≫= as_pvalues = Ok pp -> uns a !! k = Some (UPvalues pp).
Proof.
  unfold uns_get. destruct (uns a !! k) as [[]|]; simpl; congruence.
Qed.

Lemma uns_get_as_gene_list (a : AnnData) (k : string) (gl : list string) :
  uns_get a k ≫= as_gene_list = Ok gl -> uns a !! k = Some (UGeneList gl).
Proof.
  unfold uns_get. destruct (uns a !! k) as [[]|]; simpl; congruence.
Qed.

Lemma require_cpb_results_Ok (a : AnnData) (alpha : float) (cpb : list cpb_row) :
  require_cpb_results a alpha = Ok cpb ->
  exists table, uns a !! "cpb_results" = Some (UCpb table) /\
                cpb = List.filter (fun r => SFleb (p_val_cond r) alpha) table.
Proof.
  unfold require_cpb_results.
  destruct (uns a !! "cpb_results") as [[]|]; simpl; try discriminate.
  intros [= <-]. eauto.
Qed.

(** C7.  When the extraction returns the matrix [m]: it has one row per
    cell of the data object and one column per row of the CPB table with
    [p_val_cond <= alpha]; for a cell [c] of the tensor and a kept pair
    [n], the entry at [(c, n)] is [-log10] of the entry that the matrix
    of cell [c] holds at the positions of the two genes of the pair in
    the gene list; the rows for which the tensor holds no cell keep the
    initial one, so their entries are [-log10(1)], which is a zero; and
    [m] is the matrix on which the biclustering is run. *)
Theorem pval_matrix_entries (a : AnnData) (distance_threshold alpha : float)
    (cpb : list cpb_row) (m : matrix) (pair_genes : list string) :
  extract_pvalues a distance_threshold alpha = Ok (cpb, m, pair_genes) ->
  np_log10 fone = fzero ->
  exists table pp geneList,
    uns a !! "cpb_results" = Some (UCpb table) /\
    uns a !! pvalues_key distance_threshold = Some (UPvalues pp) /\
    uns a !! "geneList" = Some (UGeneList geneList) /\
    cpb = List.filter (fun r => SFleb (p_val_cond r) alpha) table /\
    length m = n_obs a /\
    Forall (fun row => length row = length cpb) m /\
    (forall c n i, (c < n_obs a)%nat -> cpb !! n = Some i ->
       match pp !! c with
       | Some cell =>
           exists index1 index2 v,
             first_position geneList (gene_id1 i) index1 /\
             first_position geneList (gene_id2 i) index2 /\
             mat_get cell index1 index2 = Ok v /\
             entry m c n = Some (SFopp (np_log10 v))
       | None =>
           entry m c n = Some (SFopp (np_log10 fone)) /\
           SFeqb (SFopp (np_log10 fone)) fzero = true
       end) /\
    (forall fuel num_biclusters randomized_searches scale_data
            cell_threshold threads t,
       bicluster_table fuel a distance_threshold num_biclusters
         randomized_searches scale_data alpha cell_threshold threads = Ok t ->
       exists biclusters,
         LargeAverageSubmatrices_run num_biclusters randomized_searches
           scale_data threads m = Ok biclusters).
Proof.
  intros E Hlog. pose proof E as E0. unfold extract_pvalues in E.
  inv_bind E. inv_bind E. inv_bind E. inv_bind E. injection E as <- <- <-.
  apply require_cpb_results_Ok in Ha as (table & Htable & ->).
  apply uns_get_as_pvalues in Ha0. apply uns_get_as_gene_list in Ha1.
  unfold fill_matrix in Ha2.
  destruct (fill_matrix_spec _ _ _ _ _ _ Ha2) as (Hcols & Hkeep & Hshape).
  set (cpb := List.filter (fun r => SFleb (p_val_cond r) alpha) table) in *.
  rewrite length_map in *. simpl in Hkeep, Hshape, Hcols.
  exists table, a1, a2. repeat split; try done.
  - unfold neg_log10. rewrite length_map.
    apply (f_equal length) in Hshape. rewrite !length_fmap in Hshape.
    rewrite Hshape. unfold np_ones. by rewrite length_replicate.
  - apply Forall_lookup_2. intros r row Hrow. unfold neg_log10 in Hrow.
    rewrite list_lookup_fmap in Hrow.
    destruct (a3.1 !! r) as [row0|] eqn:Hr0; [|discriminate].
    injection Hrow as <-. rewrite length_map.
    assert (Hl : (length <$> a3.1) !! r = Some (length row0))
      by by rewrite list_lookup_fmap, Hr0.
    rewrite Hshape, list_lookup_fmap in Hl. unfold np_ones in Hl.
    destruct (replicate (n_obs a) (replicate (length cpb) fone) !! r)
      as [ones|] eqn:Hones; [|discriminate].
    apply lookup_replicate_1 in Hones as [-> _].
    simpl in Hl. rewrite length_replicate in Hl. congruence.
  - intros c n i Hc Hn. destruct (a1 !! c) as [cell|] eqn:Hcell.
    + destruct (Hcols n i Hn) as (i1 & i2 & Hix & Hall).
      destruct (Hall c cell Hcell) as (v & Hv & He).
      exists i1, i2, v. unfold pair_indexes in Hix.
      inv_bind Hix. inv_bind Hix. injection Hix as <- <-.
      repeat split; try by apply index_exn_first_position.
      * done.
      * by rewrite entry_neg_log10, He.
    + apply lookup_ge_None in Hcell. rewrite entry_neg_log10.
      rewrite Hkeep by lia.
      rewrite entry_np_ones by (done || by eapply lookup_lt_Some).
      simpl. by rewrite Hlog.
  - intros fuel nb rs sd ct th t Et. unfold bicluster_table in Et.
    rewrite E0 in Et. simpl in Et. inv_bind Et. inv_bind Et. eauto.
Qed.

End ExtractionFacts.

Lemma pval_matrix_entries_witness :
  exists table pp geneList,
    uns (Fixture.adata_tested [Fixture.cell_a; Fixture.cell_b]) !! "cpb_results"
      = Some (UCpb table) /\
    uns (Fixture.adata_tested [Fixture.cell_a; Fixture.cell_b])
      !! pvalues_key (RT := Fixture.runtime) Fixture.f_two = Some (UPvalues pp) /\
    uns (Fixture.adata_tested [Fixture.cell_a; Fixture.cell_b]) !! "geneList"
      = Some (UGeneList geneList) /\
    Fixture.extracted.1.1
      = List.filter (fun r => SFleb (p_val_cond r) Fixture.f_1e2) table /\
    length Fixture.extracted.1.2
      = n_obs (Fixture.adata_tested [Fixture.cell_a; Fixture.cell_b]) /\
    Forall (fun row => length row = length Fixture.extracted.1.1)
      Fixture.extracted.1.2 /\
    (forall c n i,
       (c < n_obs (Fixture.adata_tested [Fixture.cell_a; Fixture.cell_b]))%nat ->
       Fixture.extracted.1.1 !! n = Some i ->
       match pp !! c with
       | Some cell =>
           exists index1 index2 v,
             first_position geneList (gene_id1 i) index1 /\
             first_position geneList (gene_id2 i) index2 /\
             mat_get cell index1 index2 = Ok v /\
             entry Fixture.extracted.1.2 c n
               = Some (SFopp (np_log10 (PyRuntime := Fixture.runtime) v))
       | None =>
           entry Fixture.extracted.1.2 c n
             = Some (SFopp (np_log10 (PyRuntime := Fixture.runtime) fone)) /\
           SFeqb (SFopp (np_log10 (PyRuntime := Fixture.runtime) fone)) fzero
             = true
       end) /\
    (forall fuel num_biclusters randomized_searches scale_data cell_threshold
            threads t,
       bicluster_table (RT := Fixture.runtime) (BL := Fixture.bicluster_lib)
         fuel (Fixture.adata_tested [Fixture.cell_a; Fixture.cell_b])
         Fixture.f_two num_biclusters randomized_searches scale_data
         Fixture.f_1e2 cell_threshold threads = Ok t ->
       exists biclusters,
         @LargeAverageSubmatrices_run Fixture.bicluster_lib num_biclusters
           randomized_searches scale_data threads Fixture.extracted.1.2
         = Ok biclusters).
Proof.
  apply (pval_matrix_entries (RT := Fixture.runtime)
           (BL := Fixture.bicluster_lib)
           (Fixture.adata_tested [Fixture.cell_a; Fixture.cell_b])
           Fixture.f_two Fixture.f_1e2 Fixture.extracted.1.1
           Fixture.extracted.1.2 Fixture.extracted.2).
  - vm_compute. reflexivity.
  - vm_compute. reflexivity.
Defined.

(** The matrix of that run: two pairs are kept; the first two cells give
    3, 3 and 2, 1; the third cell has no matrix in the tensor and its row
    keeps [-log10(1)], the negative zero. *)
Example extracted_matrix :
  Fixture.extracted.1.2
  = [ [Fixture.f_int 3; Fixture.f_int 3];
      [Fixture.f_int 2; Fixture.f_int 1];
      [S754_zero true; S754_zero true] ].
Proof. vm_compute. reflexivity. Qed.

(** ** analyse_fsm *)

Lemma first_position_unique (l : list string) (x : string) (i j : nat) :
  first_position l x i -> first_position l x j -> i = j.
Proof.
  intros [Hi Hi'] [Hj Hj'].
  destruct (Nat.lt_trichotomy i j) as [H|[H|H]]; [|done|].
  - destruct (Hj' i H Hi).
  - destruct (Hi' j H Hj).
Qed.

Lemma combinations2_positions {A} (l : list A) (x y : A) :
  (x, y) ∈ Py.combinations2 l <->
  exists p q, (p < q)%nat /\ l !! p = Some x /\ l !! q = Some y.
Proof.
  induction l as [|z zs IH]; simpl.
  - split; [intros H; inversion H | intros (p & q & _ & H & _); discriminate H].
  - rewrite elem_of_app, list_elem_of_fmap, IH. split.
    + intros [(y' & [= -> ->] & Hy)|(p & q & Hpq & Hp & Hq)].
      * apply list_elem_of_lookup in Hy as [q Hq].
        exists 0%nat, (S q). repeat split; [lia | done].
      * exists (S p), (S q). repeat split; [lia | done | done].
    + intros (p & q & Hpq & Hp & Hq). destruct q as [|q]; [lia|].
      simpl in Hq. destruct p as [|p]; simpl in Hp.
      * injection Hp as ->. left. exists y. split; [done|].
        apply list_elem_of_lookup. eauto.
      * right. exists p, q. repeat split; [lia | done | done].
Qed.

Lemma py_all_true (l : list bool) : py_all l = true <-> Forall (fun b => b = true) l.
Proof.
  unfold py_all. rewrite forallb_forall, Forall_forall.
  split; intros H b Hb; apply H; by apply list_elem_of_In.
Qed.

Lemma split_nonempty (sep : ascii) (s : string) : Py.split sep s <> [].
Proof.
  destruct s as [|c s]; simpl; [done|].
  destruct (Ascii.eqb c sep); [done|]. by destruct (Py.split sep s).
Qed.

Section AnalyseFacts.
Context `{RT : PyRuntime}.

Lemma cell_passes_true (alpha : float) (idx : list nat) (cell : matrix) :
  cell_passes alpha idx cell = Ok true ->
  forall i j, (i, j) ∈ Py.combinations2 idx ->
    exists v, mat_get cell i j = Ok v /\ SFltb v alpha = true.
Proof.
  unfold cell_passes. intros E. bind_inv E as tests Ht. injection E as E.
  apply py_all_true in E. apply map_outcome_Forall2 in Ht.
  intros i j Hij. apply list_elem_of_lookup in Hij as [k Hk].
  destruct (Forall2_lookup_l _ _ _ _ _ Ht Hk) as (b & Hb & Hv).
  simpl in Hv. bind_inv Hv as v Hget. injection Hv as <-.
  exists v. split; [done|].
  rewrite Forall_lookup in E. by apply (E k).
Qed.

Lemma cell_passes_false (alpha : float) (idx : list nat) (cell : matrix) :
  cell_passes alpha idx cell = Ok false ->
  exists i j v, (i, j) ∈ Py.combinations2 idx /\
                mat_get cell i j = Ok v /\ SFltb v alpha = false.
Proof.
  unfold cell_passes. intros E. bind_inv E as tests Ht. injection E as E.
  apply map_outcome_Forall2 in Ht. revert Ht E.
  generalize (Py.combinations2 idx). intros l Ht.
  induction Ht as [|[i j] b l bs Hb _ IH]; simpl; [discriminate|].
  simpl in Hb. bind_inv Hb as v0 Hget. injection Hb as <-.
  destruct (SFltb v0 alpha) eqn:Hlt; simpl.
  - intros E. destruct (IH E) as (i' & j' & v & Hin & Hv).
    exists i', j', v. split; [by right | done].
  - intros _. exists i, j, v0. split; [by left | done].
Qed.

(** The test made on a cell decides [all_pairs_below]. *)
Lemma cell_passes_spec (geneList : list string) (alpha : float)
    (names : list string) (idx : list nat) (cell : matrix) (b : bool) :
  Forall2 (first_position geneList) names idx ->
  cell_passes alpha idx cell = Ok b ->
  b = true <-> all_pairs_below geneList alpha names cell.
Proof.
  intros Hidx E. destruct b.
  - split; [intros _ | done]. intros p q g h Hpq Hp Hq.
    destruct (Forall2_lookup_l _ _ _ _ _ Hidx Hp) as (i & Hi & Hgi).
    destruct (Forall2_lookup_l _ _ _ _ _ Hidx Hq) as (j & Hj & Hhj).
    destruct (cell_passes_true _ _ _ E i j) as (v & Hv & Hlt).
    { apply combinations2_positions. eauto. }
    exists i, j, v. auto.
  - split; [discriminate|]. intros Hall. exfalso.
    destruct (cell_passes_false _ _ _ E) as (i & j & v & Hin & Hv & Hlt).
    apply combinations2_positions in Hin as (p & q & Hpq & Hp & Hq).
    destruct (Forall2_lookup_r _ _ _ _ _ Hidx Hp) as (g & Hg & Hgi).
    destruct (Forall2_lookup_r _ _ _ _ _ Hidx Hq) as (h & Hh & Hhj).
    destruct (Hall p q g h Hpq Hg Hh) as (i' & j' & v' & Hi' & Hj' & Hv' & Hlt').
    rewrite (first_position_unique _ _ _ _ Hi' Hgi) in Hv'.
    rewrite (first_position_unique _ _ _ _ Hj' Hhj) in Hv'.
    congruence.
Qed.

Lemma clique_uids_spec (geneList : list string) (alpha : float)
    (names : list string) (idx : list nat) (cell_ids : list string)
    (cells : list matrix) :
  Forall2 (first_position geneList) names idx ->
  forall (n : nat) (acc uids : list string),
    for_enum
      (fun n cell uids =>
         ok ← cell_passes alpha idx cell;
         if ok : bool then
           uid ← from_option IndexError (cell_ids !! n); Ok (uids ++ [uid])
         else Ok uids)
      n cells acc = Ok uids ->
    exists us, uids = acc ++ us /\
               selected (all_pairs_below geneList alpha names) cell_ids n cells us.
Proof.
  intros Hidx. induction cells as [|c cs IH]; intros n acc uids; simpl; intros E.
  - injection E as <-. exists []. split; [by rewrite app_nil_r | constructor].
  - bind_inv E as acc' Hbody. bind_inv Hbody as ok Hok.
    pose proof (cell_passes_spec _ _ _ _ _ _ Hidx Hok) as Hspec.
    destruct ok.
    + bind_inv Hbody as uid Huid. injection Hbody as <-.
      apply from_option_Ok in Huid.
      destruct (IH _ _ _ E) as (us & -> & Hsel). exists (uid :: us).
      split; [by rewrite <- List.app_assoc|].
      apply selected_keep; [by apply Hspec | done | done].
    + injection Hbody as <-. destruct (IH _ _ _ E) as (us & -> & Hsel).
      exists us. split; [done|]. apply selected_skip; [|done].
      intros HP. apply Hspec in HP. discriminate.
Qed.

End AnalyseFacts.

Section AnalyseTable.
Context `{RT : PyRuntime}.

Lemma uns_get_as_cliques (a : AnnData) (k : string) (t : list clique_row) :
  uns_get a k ≫= as_cliques = Ok t -> uns a !! k = Some (UCliques t).
Proof.
  unfold uns_get. destruct (uns a !! k) as [[]|]; simpl; congruence.
Qed.

Lemma gene_indexes_positions (a : AnnData) (vertices : string) (idx : list nat) :
  gene_indexes a vertices = Ok idx ->
  exists geneList,
    uns a !! "geneList" = Some (UGeneList geneList) /\
    Forall2 (first_position geneList) (Py.split "," vertices) idx.
Proof.
  unfold gene_indexes. intros E. apply map_outcome_Forall2 in E.
  pose proof (split_nonempty "," vertices) as Hne.
  destruct E as [|x k xs ks Hx Hxs]; [done|].
  bind_inv Hx as gl Hgl. apply uns_get_as_gene_list in Hgl.
  exists gl. split; [done|]. constructor.
  - by apply index_exn_first_position.
  - eapply Forall2_impl; [exact Hxs|]. intros y j Hy. simpl in Hy.
    unfold uns_get in Hy. rewrite Hgl in Hy. simpl in Hy.
    by apply index_exn_first_position.
Qed.

Variables (a : AnnData) (distance_threshold alpha : float).

Lemma per_clique_spec (cl : clique_row) (ys : list fsm_row) :
  per_clique a distance_threshold alpha cl = Ok ys ->
  exists uids, clique_cells a distance_threshold alpha cl uids /\
               ys = fsm_rows_of (cl, uids).
Proof.
  unfold per_clique. intros E.
  bind_inv E as idx Hidx. bind_inv E as pp Hpp. bind_inv E as uids Hu.
  injection E as <-. exists uids. split; [|done].
  apply gene_indexes_positions in Hidx as (gl & Hgl & Hpos).
  apply uns_get_as_pvalues in Hpp. unfold clique_uids in Hu.
  destruct (clique_uids_spec _ _ _ _ _ _ Hpos _ _ _ Hu) as (us & -> & Hsel).
  exists pp, gl. auto.
Qed.

Lemma per_clique_collect (n : nat) (l : list clique_row)
    (yss : list (list fsm_row)) :
  Forall2 (fun (kx : nat * clique_row) ys => per_clique a distance_threshold alpha kx.2 = Ok ys)
    (zip (seq n (length l)) l) yss ->
  exists uidss,
    Forall2 (clique_cells a distance_threshold alpha) l uidss /\
    concat yss = flat_map fsm_rows_of (zip l uidss).
Proof.
  revert n yss. induction l as [|cl l IH]; intros n yss F; simpl in F.
  - inversion F; subst. exists []. split; [constructor | done].
  - inversion F as [|? ys ? yss' Hcl F']; subst. simpl in Hcl.
    apply per_clique_spec in Hcl as (uids & Hcells & ->).
    destruct (IH _ _ F') as (uidss & Hall & Hcat). exists (uids :: uidss).
    split; [by constructor|]. simpl. by rewrite Hcat.
Qed.

Lemma analyse_fsm_table_spec (top_k n_vertices : Z) (t : list fsm_row) :
  analyse_fsm_table a top_k n_vertices distance_threshold alpha = Ok t ->
  exists cliques uidss,
    uns a !! cliques_key n_vertices = Some (UCliques cliques) /\
    Forall2 (clique_cells a distance_threshold alpha)
      (Py.slice_to top_k cliques) uidss /\
    t = flat_map fsm_rows_of (zip (Py.slice_to top_k cliques) uidss).
Proof.
  unfold analyse_fsm_table. intros E. bind_inv E as cliques Hcl.
  apply uns_get_as_cliques in Hcl.
  rewrite (for_enum_ext _
    (fun k x acc => ys ← (fun (_ : nat) cl => per_clique a distance_threshold alpha cl) k x;
                    Ok (acc ++ ys))) in E.
  2:{ intros k cl acc. unfold per_clique, fsm_rows_of. simpl.
      destruct (gene_indexes a (Vertices cl)) as [idx| |]; simpl; try done.
      destruct (uns_get a (pvalues_key distance_threshold) ≫= as_pvalues)
        as [pp| |]; simpl; try done.
      destruct (clique_uids alpha (obs_names a) idx pp) as [uids| |];
        simpl; try done.
      case_decide; simpl; by rewrite ?app_nil_r. }
  apply for_enum_collect in E as (yss & F & ->).
  apply per_clique_collect in F as (uidss & Hall & Hcat).
  exists cliques, uidss. simpl. rewrite Hcat. done.
Qed.


End AnalyseTable.


(** At [alpha = 0.1] the clique A,B,C is below [alpha] in one cell only and
    gets no row; the clique A,B is so in six cells (not in the cell with
    the NaN) and gets one; the third clique is outside the top two. *)
Example analyse_fsm_stores :
  (uns <$> heap Fixture.analysed.2 !! 0%nat) ≫= (.!! "instant_fsm")
  = Some (UFsm [ {| fsm_genes := "A,B"; fsm_ncells := 6;
                    fsm_uIDs := "c1,c3,c4,c5,c6,c7" |} ]).
Proof. vm_compute. reflexivity. Qed.

(** * Further properties *)

(** ** run_instant: the calls it makes and the objects it touches *)

Lemma get_obj_Ok (l : nat) (w w1 : world) (a : AnnData) :
  get_obj l w = (Ok a, w1) -> heap w !! l = Some a /\ w1 = w.
Proof.
  unfold get_obj, deref. intros [= E <-]. split; [|done].
  by apply from_option_Ok in E.
Qed.

Lemma lift_Ok {A} (o : outcome A) (w w1 : world) (a : A) :
  lift o w = (Ok a, w1) -> o = Ok a /\ w1 = w.
Proof. unfold lift. by intros [= -> <-]. Qed.

Lemma call_lib_Ok {O} (ev : event)
    (f : gmap string AnnData -> outcome (O * gmap string AnnData))
    (w w1 : world) (o : O) :
  call_lib ev f w = (Ok o, w1) ->
  log w1 = log w ++ [ev] /\ heap w1 = heap w.
Proof.
  unfold call_lib. simpl. destruct (f (files w)) as [[o' fs]| |];
    intros [= <- <-]; done.
Qed.

Lemma call_lib_heap {O} (ev : event)
    (f : gmap string AnnData -> outcome (O * gmap string AnnData)) (w : world) :
  heap (call_lib ev f w).2 = heap w.
Proof.
  unfold call_lib. simpl. by destruct (f (files w)) as [[o' fs]| |].
Qed.

Section RunInstantSequence.
Context `{IL : InstantLib}.

Lemma run_instant_tests_Ok adata_st d threads nv a_cpb a_fsm filename sliced
    draw (w w1 : world) (f : string) :
  run_instant_tests adata_st d threads nv a_cpb a_fsm filename sliced draw w
    = (Ok f, w1) ->
  exists a cols,
    heap w !! adata_st = Some a /\
    uns a !! "transcripts" = Some (UTranscripts cols) /\
    f = file_used filename draw /\
    heap w1 = heap w /\
    log w1 = log w
             ++ match filename with
                | None => [EvWriteH5ad (temp_name draw)]
                | Some _ => []
                end
             ++ [ EvLoadPreprocessed f; EvProximalPairs (pp_choice cols sliced);
                  EvGlobalColocalization; EvFsm ].
Proof.
  unfold run_instant_tests. intros E.
  apply M_bind_Ok in E as (a & w2 & Hget & E).
  apply get_obj_Ok in Hget as [Ha ->].
  apply M_bind_Ok in E as (f' & w2 & Hname & E).
  assert (Hw2 : f' = file_used filename draw /\ heap w2 = heap w /\
                log w2 = log w ++ match filename with
                                  | None => [EvWriteH5ad (temp_name draw)]
                                  | Some _ => []
                                  end).
  { destruct filename as [g|]; simpl in *.
    - injection Hname as <- <-. by rewrite app_nil_r.
    - apply M_bind_Ok in Hname as ([] & w3 & Hwr & Hname).
      injection Hname as <- <-. unfold write_h5ad in Hwr.
      by injection Hwr as <-. }
  destruct Hw2 as (-> & Hh2 & Hl2).
  apply M_bind_Ok in E as (o1 & w3 & Hload & E).
  apply call_lib_Ok in Hload as [Hl3 Hh3].
  apply M_bind_Ok in E as (tr & w4 & Htr & E).
  apply lift_Ok in Htr as [Htr ->].
  apply M_bind_Ok in E as (cols & w4 & Hcols & E).
  apply lift_Ok in Hcols as [Hcols ->].
  apply M_bind_Ok in E as (o2 & w4 & Hpp & E).
  assert (Hw4 : log w4 = log w3 ++ [EvProximalPairs (pp_choice cols sliced)] /\
                heap w4 = heap w3).
  { unfold pp_choice. destruct (bool_decide ("absZ" ∈ cols));
      [destruct sliced|]; by apply call_lib_Ok in Hpp. }
  destruct Hw4 as [Hl4 Hh4].
  apply M_bind_Ok in E as (o3 & w5 & Hgc & E).
  apply call_lib_Ok in Hgc as [Hl5 Hh5].
  apply M_bind_Ok in E as (o4 & w6 & Hfsm & E).
  apply call_lib_Ok in Hfsm as [Hl6 Hh6].
  injection E as <- <-.
  unfold uns_get in Htr. apply from_option_Ok in Htr.
  destruct tr; try discriminate. injection Hcols as <-.
  exists a, columns. repeat split; try done; [congruence|].
  rewrite Hl6, Hl5, Hl4, Hl3, Hl2, <- !List.app_assoc. done.
Qed.

Lemma keeps_heap_bind {A B} (m : M A) (k : A -> M B) :
  keeps_heap m -> (forall a, keeps_heap (k a)) -> keeps_heap (m ≫= k).
Proof.
  intros Hm Hk w. specialize (Hm w). unfold mbind, M_bind.
  destruct (m w) as [[a| |] w1]; simpl in *; [|done|done].
  by rewrite Hk.
Qed.

Lemma keeps_heap_call_lib {O} (ev : event)
    (f : gmap string AnnData -> outcome (O * gmap string AnnData)) :
  keeps_heap (call_lib ev f).
Proof. intros w. apply call_lib_heap. Qed.

Lemma run_instant_tests_heap adata_st d threads nv a_cpb a_fsm filename sliced
    draw :
  keeps_heap (run_instant_tests adata_st d threads nv a_cpb a_fsm filename
                sliced draw).
Proof.
  unfold run_instant_tests.
  apply keeps_heap_bind; [done | intros a].
  apply keeps_heap_bind.
  { destruct filename; [done|]. by apply keeps_heap_bind. }
  intros f.
  repeat (apply keeps_heap_bind;
          [ first [ apply keeps_heap_call_lib
                  | done
                  | repeat match goal with
                           | |- keeps_heap (if ?b then _ else _) => destruct b
                           end; apply keeps_heap_call_lib ]
          | intros ? ]).
  done.
Qed.

(** X1.  When [run_instant] returns, the calls it made are, in this order:
    the write of the temporary file when no file name was given; the load
    of the file by the external object; one proximal-pairs test, the
    sliced 3D one when the transcripts of the object passed in have a
    column [absZ] and [is_sliced] is set, the 3D one when they have the
    column and it is not set, the 2D one otherwise; the global
    colocalization; the subgraph mining; the read of the file; and its
    removal when [remove_file] is set.  In particular the object passed in
    has a table of transcripts. *)
Theorem run_instant_call_sequence (adata_st : nat) (d : float)
    (threads nv : Z) (a_cpb a_fsm : float) (filename : option string)
    (remove_file sliced : bool) (draw : Z) (w w' : world) (r : nat) :
  run_instant adata_st d threads nv a_cpb a_fsm filename remove_file sliced
    draw w = (Ok r, w') ->
  exists a cols,
    heap w !! adata_st = Some a /\
    uns a !! "transcripts" = Some (UTranscripts cols) /\
    log w' = log w
             ++ match filename with
                | None => [EvWriteH5ad (temp_name draw)]
                | Some _ => []
                end
             ++ [ EvLoadPreprocessed (file_used filename draw);
                  EvProximalPairs (pp_choice cols sliced);
                  EvGlobalColocalization; EvFsm;
                  EvReadH5ad (file_used filename draw) ]
             ++ (if remove_file then [EvRm (file_used filename draw)] else []).
Proof.
  unfold run_instant. intros E.
  apply M_bind_Ok in E as (f & w1 & Ht & E).
  apply run_instant_tests_Ok in Ht as (a & cols & Ha & Hcols & -> & Hh & Hl).
  apply M_bind_Ok in E as (l & w2 & Hread & E).
  apply M_bind_Ok in E as ([] & w3 & Hrm & E). injection E as <- <-.
  exists a, cols. split; [done|]. split; [done|].
  unfold read_h5ad in Hread. simpl in Hread.
  destruct (files w1 !! file_used filename draw); [|discriminate].
  injection Hread as <- <-.
  destruct remove_file; injection Hrm as <-; simpl;
    rewrite Hl, <- !List.app_assoc; simpl; by rewrite <- ?List.app_assoc.
Qed.

(** X2.  When [run_instant] returns, the object it returns is a new one,
    at a location that the store did not use, and the store is otherwise
    as before: the object passed in is not changed. *)
Theorem run_instant_returns_new_object (adata_st : nat) (d : float)
    (threads nv : Z) (a_cpb a_fsm : float) (filename : option string)
    (remove_file sliced : bool) (draw : Z) (w w' : world) (r : nat) :
  run_instant adata_st d threads nv a_cpb a_fsm filename remove_file sliced
    draw w = (Ok r, w') ->
  heap w !! r = None /\
  r ≠ adata_st /\
  (exists a', heap w' = <[r := a']> (heap w)) /\
  heap w' !! adata_st = heap w !! adata_st.
Proof.
  unfold run_instant. intros E.
  apply M_bind_Ok in E as (f & w1 & Ht & E).
  pose proof (run_instant_tests_heap adata_st d threads nv a_cpb a_fsm
                filename sliced draw w) as Hh. rewrite Ht in Hh. simpl in Hh.
  apply run_instant_tests_Ok in Ht as (a & cols & Ha & _).
  apply M_bind_Ok in E as (l & w2 & Hread & E).
  apply M_bind_Ok in E as ([] & w3 & Hrm & E). injection E as <- <-.
  unfold read_h5ad in Hread. simpl in Hread.
  destruct (files w1 !! f) as [a'|]; [|discriminate].
  injection Hread as <- <-.
  assert (Hw3 : heap w3 = <[fresh_loc (heap w1) := a']> (heap w1)).
  { destruct remove_file; by injection Hrm as <-. }
  rewrite Hh in *.
  assert (Hfresh : heap w !! fresh_loc (heap w) = None).
  { apply not_elem_of_dom. unfold fresh_loc. apply is_fresh. }
  assert (Hne : fresh_loc (heap w) ≠ adata_st) by congruence.
  repeat split; [done | done | by exists a' |].
  rewrite Hw3. by rewrite lookup_insert_ne.
Qed.

(** X3.  When [run_instant] raises, no file was removed (a temporary file
    that was written is left behind) and the object store is as it was. *)
Theorem run_instant_raise_leaves_file (adata_st : nat) (d : float)
    (threads nv : Z) (a_cpb a_fsm : float) (filename : option string)
    (remove_file sliced : bool) (draw : Z) (w w' : world) (e : exn) :
  run_instant adata_st d threads nv a_cpb a_fsm filename remove_file sliced
    draw w = (Raise e, w') ->
  heap w' = heap w /\
  exists evs, log w' = log w ++ evs /\ Forall (fun ev => ~ is_rm ev) evs.
Proof.
  unfold run_instant. intros E.
  pose proof (run_instant_tests_heap adata_st d threads nv a_cpb a_fsm
                filename sliced draw w) as Hh.
  destruct (run_instant_tests_log adata_st d threads nv a_cpb a_fsm filename
              sliced draw w) as (pre & Hpre & Fpre).
  assert (Fpre' : Forall (fun ev => ~ is_rm ev) pre).
  { eapply Forall_impl; [exact Fpre | by intros ? []]. }
  unfold mbind, M_bind in E.
  destruct (run_instant_tests _ _ _ _ _ _ _ _ _ w) as [[f| |] w1];
    simpl in *; try discriminate.
  - unfold read_h5ad in E. simpl in E.
    destruct (files w1 !! f) as [a'|].
    + by destruct remove_file.
    + injection E as _ <-. simpl. split; [done|].
      exists (pre ++ [EvReadH5ad f]). rewrite Hpre, <- List.app_assoc.
      split; [done|]. apply Forall_app. split; [done|].
      constructor; [|done]. intros [? H]. discriminate H.
  - injection E as _ <-. split; [done|]. by exists pre.
Qed.

End RunInstantSequence.

Lemma run_instant_call_sequence_witness :
  exists a cols,
    heap (Fixture.world_of Fixture.adata_fresh) !! 0%nat = Some a /\
    uns a !! "transcripts" = Some (UTranscripts cols) /\
    log Fixture.ran.2
    = log (Fixture.world_of Fixture.adata_fresh)
      ++ [EvWriteH5ad (temp_name 42)]
      ++ [ EvLoadPreprocessed (file_used None 42);
           EvProximalPairs (pp_choice cols true);
           EvGlobalColocalization; EvFsm; EvReadH5ad (file_used None 42) ]
      ++ (if true then [EvRm (file_used None 42)] else []).
Proof.
  apply (run_instant_call_sequence (IL := Fixture.instant_lib) 0%nat
           Fixture.f_two 4 3 Fixture.f_1e3 Fixture.f_1e3 None true true 42
           (Fixture.world_of Fixture.adata_fresh) Fixture.ran.2 1%nat).
  vm_compute. reflexivity.
Defined.

Lemma run_instant_returns_new_object_witness :
  heap (Fixture.world_of Fixture.adata_fresh) !! 1%nat = None /\
  1%nat ≠ 0%nat /\
  (exists a', heap Fixture.ran.2
              = <[1%nat := a']> (heap (Fixture.world_of Fixture.adata_fresh))) /\
  heap Fixture.ran.2 !! 0%nat
  = heap (Fixture.world_of Fixture.adata_fresh) !! 0%nat.
Proof.
  apply (run_instant_returns_new_object (IL := Fixture.instant_lib) 0%nat
           Fixture.f_two 4 3 Fixture.f_1e3 Fixture.f_1e3 None true true 42
           (Fixture.world_of Fixture.adata_fresh) Fixture.ran.2 1%nat).
  vm_compute. reflexivity.
Defined.

Lemma run_instant_raise_leaves_file_witness :
  heap Fixture.ran_missing.2 = heap (Fixture.world_of Fixture.adata_fresh) /\
  exists evs,
    log Fixture.ran_missing.2
    = log (Fixture.world_of Fixture.adata_fresh) ++ evs /\
    Forall (fun ev => ~ is_rm ev) evs.
Proof.
  apply (run_instant_raise_leaves_file (IL := Fixture.instant_lib) 0%nat
           Fixture.f_two 4 3 Fixture.f_1e3 Fixture.f_1e3 (Some "data.h5ad")
           true true 42 (Fixture.world_of Fixture.adata_fresh)
           Fixture.ran_missing.2 (FileNotFoundError "data.h5ad")).
  vm_compute. reflexivity.
Defined.

(** ** impute: failure, and a second call *)

Section ImputeMore.
Context `{ML : MagicLib}.

Lemma impute_Ok (adata : nat) (n_jobs : Z) (kwargs : magic_kwargs)
    (w w' : world) (r : nat) :
  impute adata n_jobs kwargs w = (Ok r, w') ->
  exists a op X_magic,
    heap w !! adata = Some a /\
    MAGIC n_jobs kwargs = Ok op /\
    fit_transform op a = Ok X_magic /\
    heap w' !! adata = Some (set_X (X X_magic) (set_raw (raw_of a) a)).
Proof.
  unfold impute. intros E.
  apply M_bind_Ok in E as (op & w1 & Hop & E). apply lift_Ok in Hop as [Hop ->].
  apply M_bind_Ok in E as (a & w1 & Ha & E). apply get_obj_Ok in Ha as [Ha ->].
  apply M_bind_Ok in E as (Xm & w1 & Hf & E). apply lift_Ok in Hf as [Hf ->].
  apply M_bind_Ok in E as (a1 & w1 & Ha1 & E).
  apply get_obj_Ok in Ha1 as [Ha1 ->].
  apply M_bind_Ok in E as ([] & w1 & Hs1 & E). injection Hs1 as <-.
  apply M_bind_Ok in E as (a2 & w2 & Ha2 & E).
  apply get_obj_Ok in Ha2 as [Ha2 ->]. simpl in Ha2.
  rewrite lookup_insert_eq in Ha2. injection Ha2 as <-.
  apply M_bind_Ok in E as ([] & w2 & Hs2 & E). injection Hs2 as <-.
  injection E as <- <-. simpl. rewrite lookup_insert_eq.
  exists a, op, Xm. assert (a1 = a) as -> by congruence. done.
Qed.

(** X4.  When [impute] raises, be it in the constructor of the operator or
    in [fit_transform], the world is as it was: neither [raw] nor [X] of
    the object is touched. *)
Theorem impute_raise_unchanged (adata : nat) (n_jobs : Z)
    (kwargs : magic_kwargs) (w w' : world) (e : exn) :
  impute adata n_jobs kwargs w = (Raise e, w') -> w' = w.
Proof.
  unfold impute, lift, get_obj, set_obj, deref, mbind, M_bind, mret, M_ret.
  destruct (MAGIC n_jobs kwargs) as [op| |]; try congruence.
  destruct (heap w !! adata) as [a|]; cbn [from_option]; try congruence.
  destruct (fit_transform op a) as [Xm| |]; try congruence.
  cbn [heap with_heap]. rewrite lookup_insert_eq. cbn [from_option].
  discriminate.
Qed.

(** X5.  After two calls of [impute] on the same object, [raw] holds the
    matrix that the first call produced, not the matrix the object had
    before the first call, and [X] holds the matrix of the second call. *)
Theorem impute_twice_raw (adata : nat) (n1 n2 : Z) (k1 k2 : magic_kwargs)
    (w w1 w2 : world) (r1 r2 : nat) :
  impute adata n1 k1 w = (Ok r1, w1) ->
  impute adata n2 k2 w1 = (Ok r2, w2) ->
  exists a a1 a2 op1 op2 X1 X2,
    heap w !! adata = Some a /\
    heap w1 !! adata = Some a1 /\
    heap w2 !! adata = Some a2 /\
    MAGIC n1 k1 = Ok op1 /\ fit_transform op1 a = Ok X1 /\
    MAGIC n2 k2 = Ok op2 /\ fit_transform op2 a1 = Ok X2 /\
    raw a2 = Some {| raw_X := X X1; raw_var_names := var_names a |} /\
    X a2 = X X2.
Proof.
  intros E1 E2.
  apply impute_Ok in E1 as (a & op1 & X1 & Ha & Hop1 & Hf1 & Ha1).
  apply impute_Ok in E2 as (a1 & op2 & X2 & Ha1' & Hop2 & Hf2 & Ha2).
  rewrite Ha1 in Ha1'. injection Ha1' as <-.
  exists a, (set_X (X X1) (set_raw (raw_of a) a)),
    (set_X (X X2)
       (set_raw (raw_of (set_X (X X1) (set_raw (raw_of a) a)))
          (set_X (X X1) (set_raw (raw_of a) a)))),
    op1, op2, X1, X2.
  repeat split; assumption.
Qed.

End ImputeMore.

Lemma impute_raise_unchanged_witness :
  (impute (ML := Fixture.failing_magic) 0%nat (-1) tt
     (Fixture.world_of (Fixture.mk_adata ["c1"; "c2"] ∅))).2
  = Fixture.world_of (Fixture.mk_adata ["c1"; "c2"] ∅).
Proof.
  apply (impute_raise_unchanged (ML := Fixture.failing_magic) 0%nat (-1) tt
           (Fixture.world_of (Fixture.mk_adata ["c1"; "c2"] ∅)) _
           (LibraryError "fit_transform")).
  vm_compute. reflexivity.
Defined.

Lemma impute_twice_raw_witness :
  exists a a1 a2 op1 op2 X1 X2,
    heap (Fixture.world_of (Fixture.mk_adata ["c1"; "c2"] ∅)) !! 0%nat = Some a /\
    heap Fixture.imputed.2 !! 0%nat = Some a1 /\
    heap Fixture.imputed_twice.2 !! 0%nat = Some a2 /\
    @MAGIC Fixture.magic_lib (-1) tt = Ok op1 /\ fit_transform op1 a = Ok X1 /\
    @MAGIC Fixture.magic_lib (-1) tt = Ok op2 /\ fit_transform op2 a1 = Ok X2 /\
    raw a2 = Some {| raw_X := X X1; raw_var_names := var_names a |} /\
    X a2 = X X2.
Proof.
  apply (impute_twice_raw (ML := Fixture.magic_lib) 0%nat (-1) (-1) tt tt
           (Fixture.world_of (Fixture.mk_adata ["c1"; "c2"] ∅))
           Fixture.imputed.2 Fixture.imputed_twice.2 0%nat 0%nat);
    vm_compute; reflexivity.
Defined.

(** ** analyse_fsm: failure, bounds, and repeated runs *)

Lemma selected_bounds (P : matrix -> Prop) (ids : list string) (n : nat)
    (cells : list matrix) (us : list string) :
  selected P ids n cells us ->
  (length us <= length cells)%nat /\
  (length us <= length ids - n)%nat /\
  Forall (fun u => u ∈ ids) us.
Proof.
  induction 1 as [n|n c cs uid us HP Hid _ IH|n c cs us HP _ IH]; simpl.
  - repeat split; [lia | lia | constructor].
  - destruct IH as (H1 & H2 & H3). apply lookup_lt_Some in Hid as Hlt.
    repeat split; [lia | lia |]. constructor; [|done].
    by eapply list_elem_of_lookup_2.
  - destruct IH as (H1 & H2 & H3). repeat split; [lia | lia | done].
Qed.

Lemma fsm_rows_Forall (Q : clique_row -> list string -> Prop)
    (R : fsm_row -> Prop) (l : list clique_row) (k : list (list string)) :
  (forall cl uids, Q cl uids -> (5 <= length uids)%nat ->
     R {| fsm_genes := Vertices cl; fsm_ncells := length uids;
          fsm_uIDs := Py.join "," uids |}) ->
  Forall2 Q l k ->
  Forall R (flat_map fsm_rows_of (zip l k)).
Proof.
  intros HR F. induction F as [|cl uids l k HQ _ IH]; simpl; [constructor|].
  apply Forall_app. split; [|done]. unfold fsm_rows_of. simpl.
  case_decide; constructor; [by apply HR | constructor].
Qed.

Lemma fsm_rows_length (l : list clique_row) (k : list (list string)) :
  (length (flat_map fsm_rows_of (zip l k)) <= length l)%nat.
Proof.
  revert k. induction l as [|cl l IH]; intros [|uids k]; simpl; try lia.
  rewrite length_app. specialize (IH k).
  assert (length (fsm_rows_of (cl, uids)) <= 1)%nat.
  { unfold fsm_rows_of. case_decide; simpl; lia. }
  lia.
Qed.

Lemma uns_get_set_uns (k key : string) (v : uns_value) (a : AnnData) :
  k <> key -> uns_get (set_uns k v a) key = uns_get a key.
Proof. intros H. unfold uns_get. simpl. by rewrite lookup_insert_ne. Qed.

Section AnalyseMore.
Context `{RT : PyRuntime}.

Lemma analyse_fsm_Ok (adata_st : nat) (top_k n_vertices : Z)
    (distance_threshold alpha : float) (w w' : world) (r : nat) :
  analyse_fsm adata_st top_k n_vertices distance_threshold alpha w
    = (Ok r, w') ->
  exists a t,
    heap w !! adata_st = Some a /\
    analyse_fsm_table a top_k n_vertices distance_threshold alpha = Ok t /\
    r = adata_st /\
    w' = with_heap (<[adata_st := set_uns "instant_fsm" (UFsm t) a]> (heap w)) w.
Proof.
  unfold analyse_fsm. intros E.
  apply M_bind_Ok in E as (a & w1 & Ha & E). apply get_obj_Ok in Ha as [Ha ->].
  apply M_bind_Ok in E as (t & w1 & Ht & E). apply lift_Ok in Ht as [Ht ->].
  apply M_bind_Ok in E as (a1 & w1 & Ha1 & E).
  apply get_obj_Ok in Ha1 as [Ha1 ->].
  apply M_bind_Ok in E as ([] & w1 & Hs & E). injection Hs as <-.
  injection E as <- <-. assert (a1 = a) as -> by congruence.
  exists a, t. done.
Qed.

(** X6.  When [analyse_fsm] raises (no clique table, a gene of a clique
    that is not in the gene list, no p-value tensor, an index out of
    range), the world is as it was: no table is stored, not even in part. *)
Theorem analyse_fsm_raise_unchanged (adata_st : nat) (top_k n_vertices : Z)
    (distance_threshold alpha : float) (w w' : world) (e : exn) :
  analyse_fsm adata_st top_k n_vertices distance_threshold alpha w
    = (Raise e, w') -> w' = w.
Proof.
  unfold analyse_fsm, lift, get_obj, set_obj, deref, mbind, M_bind, mret, M_ret.
  destruct (heap w !! adata_st) as [a|]; cbn [from_option]; try congruence.
  destruct (analyse_fsm_table a top_k n_vertices distance_threshold alpha)
    as [t| |]; congruence.
Qed.

(** X7.  The table that [analyse_fsm] stores has at most as many rows as
    the top-k table, hence at most [top_k] when [top_k] is not negative;
    each row records at least five cells, at most as many as the data
    object has cells and at most as many as the tensor has matrices. *)
Theorem analyse_fsm_table_bounds (a : AnnData) (top_k n_vertices : Z)
    (distance_threshold alpha : float) (t : list fsm_row) :
  analyse_fsm_table a top_k n_vertices distance_threshold alpha = Ok t ->
  exists cliques,
    uns a !! cliques_key n_vertices = Some (UCliques cliques) /\
    (length t <= length (Py.slice_to top_k cliques))%nat /\
    ((0 <= top_k)%Z -> (length t <= Z.to_nat top_k)%nat) /\
    Forall (fun row =>
              (5 <= fsm_ncells row)%nat /\ (fsm_ncells row <= n_obs a)%nat /\
              exists pp,
                uns a !! pvalues_key distance_threshold = Some (UPvalues pp) /\
                (fsm_ncells row <= length pp)%nat) t.
Proof.
  intros E.
  apply analyse_fsm_table_spec in E as (cliques & uidss & Hcl & Hall & ->).
  exists cliques. split; [done|].
  pose proof (fsm_rows_length (Py.slice_to top_k cliques) uidss) as Hlen.
  split; [done|]. split.
  - intros Hk. revert Hlen. unfold Py.slice_to.
    destruct (Z.ltb_spec top_k 0); [lia|].
    rewrite length_take. lia.
  - eapply fsm_rows_Forall; [|exact Hall].
    intros cl uids (pp & gl & Hpp & Hgl & Hsel) H5. simpl.
    apply selected_bounds in Hsel as (H1 & H2 & _). unfold n_obs.
    repeat split; [done | lia |]. exists pp. split; [done | lia].
Qed.

(** X8.  When no cell identifier holds a comma, the column [uIDs] of every
    stored row can be split back at the commas: this gives as many
    identifiers as the row records cells, each of them an identifier of
    the data object. *)
Theorem analyse_fsm_uIDs_split (a : AnnData) (top_k n_vertices : Z)
    (distance_threshold alpha : float) (t : list fsm_row) :
  analyse_fsm_table a top_k n_vertices distance_threshold alpha = Ok t ->
  Forall (fun x => has_char "," x = false) (obs_names a) ->
  Forall (fun row =>
            length (Py.split "," (fsm_uIDs row)) = fsm_ncells row /\
            Forall (fun u => u ∈ obs_names a) (Py.split "," (fsm_uIDs row))) t.
Proof.
  intros E Hids.
  apply analyse_fsm_table_spec in E as (cliques & uidss & Hcl & Hall & ->).
  eapply fsm_rows_Forall; [|exact Hall].
  intros cl uids (pp & gl & Hpp & Hgl & Hsel) H5. simpl.
  apply selected_bounds in Hsel as (_ & _ & Hin).
  assert (Hsplit : Py.split "," (Py.join "," uids) = uids).
  { apply split_join.
    - intros ->. simpl in H5. lia.
    - rewrite Forall_forall in Hids. eapply Forall_impl; [exact Hin|].
      intros u Hu. by apply Hids. }
  rewrite Hsplit. by split.
Qed.

Lemma analyse_fsm_table_set_uns (k : string) (v : uns_value) (a : AnnData)
    (top_k n_vertices : Z) (distance_threshold alpha : float) :
  k <> cliques_key n_vertices -> k <> pvalues_key distance_threshold ->
  k <> "geneList" ->
  analyse_fsm_table (set_uns k v a) top_k n_vertices distance_threshold alpha
  = analyse_fsm_table a top_k n_vertices distance_threshold alpha.
Proof.
  intros H1 H2 H3. unfold analyse_fsm_table, gene_indexes.
  rewrite !uns_get_set_uns by done. reflexivity.
Qed.

Lemma result_keys_apart (n_vertices : Z) (distance_threshold : float)
    (k : string) :
  k = "instant_fsm" \/ k = "instant_biclustering" ->
  k <> cliques_key n_vertices /\ k <> pvalues_key distance_threshold /\
  k <> "geneList" /\ k <> "cpb_results".
Proof.
  unfold cliques_key, pvalues_key. intros [-> | ->]; repeat split; discriminate.
Qed.

(** X9.  Running [analyse_fsm] once more on the world it left changes
    nothing: it returns the same object and leaves the same world. *)
Theorem analyse_fsm_idempotent (adata_st : nat) (top_k n_vertices : Z)
    (distance_threshold alpha : float) (w w' : world) (r : nat) :
  analyse_fsm adata_st top_k n_vertices distance_threshold alpha w
    = (Ok r, w') ->
  analyse_fsm adata_st top_k n_vertices distance_threshold alpha w'
    = (Ok r, w').
Proof.
  intros E. apply analyse_fsm_Ok in E as (a & t & Ha & Ht & -> & ->).
  destruct (result_keys_apart n_vertices distance_threshold "instant_fsm")
    as (K1 & K2 & K3 & _); [by left|].
  unfold analyse_fsm, lift, get_obj, set_obj, deref, mbind, M_bind, mret, M_ret.
  cbn [heap with_heap]. rewrite lookup_insert_eq. cbn [from_option].
  rewrite analyse_fsm_table_set_uns by done. rewrite Ht.
  unfold with_heap. cbn [heap files log]. rewrite insert_insert_eq.
  unfold set_uns. cbn [X raw obs_names var_names uns].
  by rewrite insert_insert_eq.
Qed.

End AnalyseMore.

Lemma analyse_fsm_raise_unchanged_witness :
  Fixture.analysed_missing.2 = Fixture.world_of Fixture.adata_fresh.
Proof.
  apply (analyse_fsm_raise_unchanged (RT := Fixture.runtime) 0%nat 2 3
           Fixture.f_two Fixture.f_1e1 (Fixture.world_of Fixture.adata_fresh)
           Fixture.analysed_missing.2 (KeyError "nV3_cliques")).
  vm_compute. reflexivity.
Defined.

Lemma analyse_fsm_table_bounds_witness :
  exists cliques,
    uns Fixture.adata_cliques !! cliques_key 3 = Some (UCliques cliques) /\
    (length Fixture.fsm_table <= length (Py.slice_to 2 cliques))%nat /\
    ((0 <= 2)%Z -> (length Fixture.fsm_table <= Z.to_nat 2)%nat) /\
    Forall (fun row =>
              (5 <= fsm_ncells row)%nat /\
              (fsm_ncells row <= n_obs Fixture.adata_cliques)%nat /\
              exists pp,
                uns Fixture.adata_cliques
                  !! pvalues_key (RT := Fixture.runtime) Fixture.f_two
                  = Some (UPvalues pp) /\
                (fsm_ncells row <= length pp)%nat) Fixture.fsm_table.
Proof.
  apply (analyse_fsm_table_bounds (RT := Fixture.runtime)
           Fixture.adata_cliques 2 3 Fixture.f_two Fixture.f_1e1
           Fixture.fsm_table).
  vm_compute. reflexivity.
Defined.

Lemma analyse_fsm_uIDs_split_witness :
  Forall (fun row =>
            length (Py.split "," (fsm_uIDs row)) = fsm_ncells row /\
            Forall (fun u => u ∈ obs_names Fixture.adata_cliques)
              (Py.split "," (fsm_uIDs row))) Fixture.fsm_table.
Proof.
  apply (analyse_fsm_uIDs_split (RT := Fixture.runtime)
           Fixture.adata_cliques 2 3 Fixture.f_two Fixture.f_1e1
           Fixture.fsm_table).
  - vm_compute. reflexivity.
  - repeat constructor.
Defined.

Lemma analyse_fsm_idempotent_witness :
  analyse_fsm (RT := Fixture.runtime) 0%nat 2 3 Fixture.f_two Fixture.f_1e1
    Fixture.analysed.2 = (Ok 0%nat, Fixture.analysed.2).
Proof.
  apply (analyse_fsm_idempotent (RT := Fixture.runtime) 0%nat 2 3
           Fixture.f_two Fixture.f_1e1 (Fixture.world_of Fixture.adata_cliques)).
  vm_compute. reflexivity.
Defined.

Section AnalyseEdges.
Context `{RT : PyRuntime}.

(** X10.  With [top_k = 0], or with a negative [top_k] that drops every
    row of the clique table, [analyse_fsm] stores the empty table; only the
    clique table has to be there, the gene list and the tensor are not
    looked up. *)
Theorem analyse_fsm_table_empty_top (a : AnnData) (top_k n_vertices : Z)
    (distance_threshold alpha : float) (cliques : list clique_row) :
  uns a !! cliques_key n_vertices = Some (UCliques cliques) ->
  (top_k = 0 \/ top_k <= - Z.of_nat (length cliques))%Z ->
  analyse_fsm_table a top_k n_vertices distance_threshold alpha = Ok [].
Proof.
  intros Hcl Hk. unfold analyse_fsm_table, uns_get. rewrite Hcl. simpl.
  assert (Py.slice_to top_k cliques = []) as ->; [|done].
  unfold Py.slice_to. destruct (Z.ltb_spec top_k 0).
  - replace (Z.to_nat (Z.of_nat (length cliques) + top_k)) with 0%nat by lia.
    done.
  - destruct Hk as [-> | Hk]; [done|].
    replace (Z.to_nat top_k) with 0%nat by lia. done.
Qed.

Lemma for_all_cells_pass (alpha : float) (idx : list nat)
    (ids : list string) (pp : list matrix) :
  (length idx <= 1)%nat ->
  forall (n : nat) (acc : list string),
    (n + length pp <= length ids)%nat ->
    for_enum
      (fun n cell uids =>
         ok ← cell_passes alpha idx cell;
         if ok : bool then
           uid ← from_option IndexError (ids !! n); Ok (uids ++ [uid])
         else Ok uids)
      n pp acc = Ok (acc ++ take (length pp) (drop n ids)).
Proof.
  intros Hidx.
  assert (Hpass : forall cell, cell_passes alpha idx cell = Ok true).
  { intros cell. unfold cell_passes.
    destruct idx as [|i [|j idx]]; simpl in *; [done | done | lia]. }
  induction pp as [|cell pp IH]; intros n acc Hn; simpl.
  - by rewrite app_nil_r.
  - rewrite Hpass. simpl in Hn.
    destruct (lookup_lt_is_Some_2 ids n ltac:(lia)) as [uid Huid].
    rewrite Huid. simpl. rewrite IH by lia.
    rewrite (drop_S _ _ _ Huid). simpl. by rewrite <- List.app_assoc.
Qed.

(** X11.  A clique of one gene (no comma in [Vertices]) has no pair to
    test: when the gene is in the gene list, every cell of the tensor is
    selected, whatever its matrix holds. *)
Theorem single_vertex_selects_all (a : AnnData) (vertices : string)
    (geneList : list string) (i : nat) (alpha : float) (ids : list string)
    (pp : list matrix) :
  has_char "," vertices = false ->
  uns a !! "geneList" = Some (UGeneList geneList) ->
  Py.index vertices geneList = Some i ->
  (length pp <= length ids)%nat ->
  gene_indexes a vertices = Ok [i] /\
  clique_uids alpha ids [i] pp = Ok (take (length pp) ids).
Proof.
  intros Hv Hgl Hi Hlen. split.
  - unfold gene_indexes. rewrite split_without_sep by done. simpl.
    unfold uns_get. rewrite Hgl. simpl. unfold Py.index_exn. by rewrite Hi.
  - unfold clique_uids. rewrite for_all_cells_pass by (simpl; lia). done.
Qed.

(** X12.  A cell whose matrix holds NaN at one of the pairs that are
    tested is never selected: the test on it does not come out true. *)
Theorem nan_cell_not_selected (alpha : float) (idx : list nat)
    (cell : matrix) (i j : nat) (b : bool) :
  (i, j) ∈ Py.combinations2 idx ->
  mat_get cell i j = Ok fnan ->
  cell_passes alpha idx cell = Ok b ->
  b = false.
Proof.
  intros Hin Hnan E. destruct b; [|done].
  destruct (cell_passes_true _ _ _ E i j Hin) as (v & Hv & Hlt).
  rewrite Hnan in Hv. injection Hv as <-. discriminate Hlt.
Qed.

End AnalyseEdges.

Lemma analyse_fsm_table_empty_top_witness :
  analyse_fsm_table (RT := Fixture.runtime) Fixture.adata_cliques (-3) 3
    Fixture.f_two Fixture.f_1e1 = Ok [].
Proof.
  apply (analyse_fsm_table_empty_top (RT := Fixture.runtime)
           Fixture.adata_cliques (-3) 3 Fixture.f_two Fixture.f_1e1
           [ {| Vertices := "A,B,C" |}; {| Vertices := "A,B" |};
             {| Vertices := "B,C" |} ]).
  - vm_compute. reflexivity.
  - right. simpl. lia.
Defined.

Lemma single_vertex_selects_all_witness :
  gene_indexes Fixture.adata_cliques "B" = Ok [1%nat] /\
  clique_uids Fixture.f_1e1 ["c1"; "c2"; "c3"] [1%nat]
    [Fixture.cell_nan; []]
  = Ok (take (length [Fixture.cell_nan; []]) ["c1"; "c2"; "c3"]).
Proof.
  apply (single_vertex_selects_all Fixture.adata_cliques "B" Fixture.genes3
           1%nat Fixture.f_1e1 ["c1"; "c2"; "c3"] [Fixture.cell_nan; []]).
  - reflexivity.
  - vm_compute. reflexivity.
  - reflexivity.
  - simpl. lia.
Defined.

Lemma nan_cell_not_selected_witness :
  cell_passes Fixture.f_half [0; 1; 2]%nat Fixture.cell_nan = Ok false /\
  false = false.
Proof.
  split; [vm_compute; reflexivity|].
  apply (nan_cell_not_selected Fixture.f_half [0; 1; 2]%nat Fixture.cell_nan
           0%nat 1%nat false).
  - vm_compute. left.
  - reflexivity.
  - vm_compute. reflexivity.
Defined.

(** ** bicluster_instant: what a successful extraction requires *)

Section ExtractionMore.
Context `{RT : PyRuntime} `{BL : BiclusterLib}.

Lemma assert_entry_Ok (cell : matrix) (index1 index2 : nat) :
  assert_entry cell index1 index2 = Ok tt ->
  exists v, mat_get cell index1 index2 = Ok v /\ is_nan v = false.
Proof.
  unfold assert_entry, mat_get_tuple, mat_get. simpl.
  destruct (cell !! index1) as [row|]; simpl; [|discriminate].
  destruct (row !! index2) as [v|]; simpl; [|discriminate].
  rewrite SFeqb_same. destruct (is_nan v) eqn:Hn; simpl; [discriminate|].
  intros _. by exists v.
Qed.

Lemma fill_column_requires (index1 index2 n : nat) (cells : list matrix) :
  forall (k : nat) (m m' : matrix),
    for_enum
      (fun pos cell pval_matrix =>
         _ ← assert_entry cell index1 index2;
         v ← mat_get cell index1 index2;
         mat_set pval_matrix pos n v)
      k cells m = Ok m' ->
    Forall (fun cell => exists v, mat_get cell index1 index2 = Ok v /\
                                  is_nan v = false) cells /\
    (cells <> [] -> (k + length cells <= length m)%nat) /\
    length m' = length m.
Proof.
  induction cells as [|cell cells IH]; intros k m m'; simpl; intros E.
  - injection E as <-. repeat split; [constructor | done].
  - bind_inv E as m1 Hbody. bind_inv Hbody as u Hassert.
    bind_inv Hbody as v Hv. destruct u.
    apply assert_entry_Ok in Hassert.
    destruct (mat_set_spec _ _ _ _ _ Hbody) as (Hset & _ & Hshape).
    apply (f_equal length) in Hshape. rewrite !length_fmap in Hshape.
    destruct (IH _ _ _ E) as (Hall & Hlen & Hlen').
    assert (Hk : (k < length m)%nat).
    { unfold mat_set in Hbody. destruct (m !! k) eqn:Hmk; [|discriminate].
      by eapply lookup_lt_Some. }
    repeat split; [by constructor | | congruence].
    intros _. destruct cells as [|c cs]; simpl in *; [lia|].
    specialize (Hlen ltac:(done)). lia.
Qed.

Lemma fill_matrix_requires (geneList : list string) (pp_pvalues : list matrix)
    (cpb : list cpb_row) :
  forall (k : nat) (st st' : matrix * list string),
    for_enum
      (fun n i st =>
         ix ← pair_indexes geneList i;
         let pair_genes := st.2 ++ [gene_id1 i; gene_id2 i] in
         pval_matrix ← fill_column pp_pvalues ix.1 ix.2 n st.1;
         Ok (pval_matrix, pair_genes))
      k cpb st = Ok st' ->
    Forall (fun i =>
              exists index1 index2,
                pair_indexes geneList i = Ok (index1, index2) /\
                Forall (fun cell => exists v,
                          mat_get cell index1 index2 = Ok v /\
                          is_nan v = false) pp_pvalues) cpb /\
    (cpb <> [] -> (length pp_pvalues <= length st.1)%nat).
Proof.
  induction cpb as [|i cpb IH]; intros k st st'; simpl; intros E.
  - split; [constructor | done].
  - bind_inv E as st1 Hbody. bind_inv Hbody as ix Hix.
    bind_inv Hbody as m1 Hcol. injection Hbody as <-.
    destruct ix as [index1 index2]. simpl in Hcol.
    destruct (fill_column_requires _ _ _ _ _ _ _ Hcol) as (Hall & Hlen & _).
    destruct (IH _ _ _ E) as (Hrest & _).
    split; [constructor; eauto|].
    intros _. destruct pp_pvalues as [|c cs]; [simpl; lia|].
    specialize (Hlen ltac:(done)). simpl in *. lia.
Qed.

(** X13.  When the extraction returns with some pair kept: both genes of
    every kept pair are in the gene list; every matrix of the tensor has
    an entry at the positions of the two genes, and that entry is not NaN
    (a NaN fails the assertion); and the tensor holds at most as many
    matrices as the data object has cells. *)
Theorem extract_pvalues_requires (a : AnnData)
    (distance_threshold alpha : float) (cpb : list cpb_row) (m : matrix)
    (pair_genes : list string) :
  extract_pvalues a distance_threshold alpha = Ok (cpb, m, pair_genes) ->
  exists pp geneList,
    uns a !! pvalues_key distance_threshold = Some (UPvalues pp) /\
    uns a !! "geneList" = Some (UGeneList geneList) /\
    Forall (fun i =>
              exists index1 index2,
                first_position geneList (gene_id1 i) index1 /\
                first_position geneList (gene_id2 i) index2 /\
                Forall (fun cell => exists v,
                          mat_get cell index1 index2 = Ok v /\
                          is_nan v = false) pp) cpb /\
    (cpb <> [] -> (length pp <= n_obs a)%nat).
Proof.
  intros E. unfold extract_pvalues in E.
  bind_inv E as cpb' Hcpb. bind_inv E as pp Hpp. bind_inv E as gl Hgl.
  bind_inv E as st Hfill. injection E as <- <- <-.
  apply uns_get_as_pvalues in Hpp. apply uns_get_as_gene_list in Hgl.
  unfold fill_matrix in Hfill.
  destruct (fill_matrix_requires _ _ _ _ _ _ Hfill) as (Hall & Hlen).
  exists pp, gl. repeat split; [done | done | |].
  - eapply Forall_impl; [exact Hall|]. intros i (i1 & i2 & Hix & Hcells).
    exists i1, i2. unfold pair_indexes in Hix.
    bind_inv Hix as j1 H1. bind_inv Hix as j2 H2. injection Hix as <- <-.
    split; [by apply index_exn_first_position|].
    split; [by apply index_exn_first_position | done].
  - intros Hne. specialize (Hlen Hne). simpl in Hlen. unfold np_ones in Hlen.
    by rewrite length_replicate in Hlen.
Qed.

(** X14.  When the CPB table, the tensor and the gene list are there and no
    row of the table has [p_val_cond <= alpha] (an empty table, or [alpha]
    too small), the extraction returns a matrix with one empty row per
    cell, whatever the tensor and the gene list hold. *)
Theorem extract_pvalues_no_pair (a : AnnData)
    (distance_threshold alpha : float) (table : list cpb_row)
    (pp : list matrix) (geneList : list string) :
  uns a !! "cpb_results" = Some (UCpb table) ->
  uns a !! pvalues_key distance_threshold = Some (UPvalues pp) ->
  uns a !! "geneList" = Some (UGeneList geneList) ->
  Forall (fun r => SFleb (p_val_cond r) alpha = false) table ->
  extract_pvalues a distance_threshold alpha
  = Ok ([], replicate (n_obs a) [], []).
Proof.
  intros Ht Hpp Hgl Hall.
  assert (Hf : List.filter (fun r => SFleb (p_val_cond r) alpha) table = []).
  { clear Ht. induction Hall as [|r l Hr _ IH]; [done|].
    cbn [List.filter]. rewrite Hr. exact IH. }
  unfold extract_pvalues, require_cpb_results, uns_get.
  rewrite Ht, Hpp, Hgl. simpl. rewrite Hf. simpl.
  unfold neg_log10, np_ones. simpl.
  change (map (map (fun v => SFopp (np_log10 v))) (replicate (n_obs a) []))
    with ((map (fun v => SFopp (np_log10 v))) <$> replicate (n_obs a) []).
  by rewrite fmap_replicate.
Qed.

End ExtractionMore.

Lemma extract_pvalues_requires_witness :
  exists pp geneList,
    uns (Fixture.adata_tested [Fixture.cell_a; Fixture.cell_b])
      !! pvalues_key (RT := Fixture.runtime) Fixture.f_two = Some (UPvalues pp) /\
    uns (Fixture.adata_tested [Fixture.cell_a; Fixture.cell_b]) !! "geneList"
      = Some (UGeneList geneList) /\
    Forall (fun i =>
              exists index1 index2,
                first_position geneList (gene_id1 i) index1 /\
                first_position geneList (gene_id2 i) index2 /\
                Forall (fun cell => exists v,
                          mat_get cell index1 index2 = Ok v /\
                          is_nan v = false) pp) Fixture.extracted.1.1 /\
    (Fixture.extracted.1.1 <> [] ->
     (length pp <= n_obs (Fixture.adata_tested [Fixture.cell_a; Fixture.cell_b]))%nat).
Proof.
  apply (extract_pvalues_requires (RT := Fixture.runtime)
           (Fixture.adata_tested [Fixture.cell_a; Fixture.cell_b])
           Fixture.f_two Fixture.f_1e2 Fixture.extracted.1.1
           Fixture.extracted.1.2 Fixture.extracted.2).
  vm_compute. reflexivity.
Defined.

Lemma extract_pvalues_no_pair_witness :
  extract_pvalues (RT := Fixture.runtime)
    (Fixture.adata_tested [Fixture.cell_nan]) Fixture.f_two fzero
  = Ok ([], replicate (n_obs (Fixture.adata_tested [Fixture.cell_nan])) [], []).
Proof.
  apply (extract_pvalues_no_pair (RT := Fixture.runtime)
           (Fixture.adata_tested [Fixture.cell_nan]) Fixture.f_two fzero
           Fixture.cpb3 [Fixture.cell_nan] Fixture.genes3).
  - vm_compute. reflexivity.
  - vm_compute. reflexivity.
  - vm_compute. reflexivity.
  - repeat constructor.
Defined.

(** ** bicluster_instant: the names of the pairs and the rows of the table *)

Lemma lstrip_paren_keep (s rest : string) :
  leading_paren s = false ->
  Py.lstrip_paren (s +:+ String "," rest) = s +:+ String "," rest.
Proof. destruct s as [|c s]; simpl; [done|]. by intros ->. Qed.

Lemma rstrip_paren_close (s : string) :
  Py.rstrip_paren (s +:+ ")") = Py.rstrip_paren s.
Proof. induction s as [|c s IH]; simpl; [done|]. by rewrite IH. Qed.

Lemma rstrip_paren_comma (s : string) :
  Py.rstrip_paren (String "," s) = String "," (Py.rstrip_paren s).
Proof. simpl. by destruct (Py.rstrip_paren s). Qed.

Lemma rstrip_paren_app (s u : string) :
  Py.rstrip_paren u <> EmptyString ->
  Py.rstrip_paren (s +:+ u) = s +:+ Py.rstrip_paren u.
Proof.
  intros Hu. induction s as [|c s IH]; [done|].
  change (Py.rstrip_paren (String c s +:+ u))
    with (match Py.rstrip_paren (s +:+ u) with
          | EmptyString =>
              if Py.is_paren c then EmptyString else String c EmptyString
          | r => String c r
          end).
  rewrite IH.
  change (String c s +:+ Py.rstrip_paren u)
    with (String c (s +:+ Py.rstrip_paren u)).
  destruct (s +:+ Py.rstrip_paren u) eqn:E; [|done].
  destruct s; simpl in E; [by destruct Hu | discriminate].
Qed.

Section PairNames.
Context `{RT : PyRuntime} `{BL : BiclusterLib}.

(** X15.  For a pair named ["g1, g2"], where neither gene name holds a
    comma, [g1] does not start and [g2] does not end with a parenthesis:
    the name becomes ["(g1,g2)"], and the genes read back from it, as they
    are for the column [genes], are [g1] and [g2]. *)
Theorem format_pair_roundtrip (g1 g2 : string) :
  has_char "," g1 = false -> has_char "," g2 = false ->
  leading_paren g1 = false -> Py.rstrip_paren g2 = g2 ->
  format_pair (g1 +:+ ", " +:+ g2) = Ok ("(" +:+ g1 +:+ "," +:+ g2 +:+ ")") /\
  Py.split "," (Py.strip_paren ("(" +:+ g1 +:+ "," +:+ g2 +:+ ")")) = [g1; g2].
Proof.
  intros H1 H2 Hl Hr. split.
  - unfold format_pair.
    change (g1 +:+ ", " +:+ g2) with (g1 +:+ String "," (String " " g2)).
    rewrite split_append by done.
    rewrite (split_without_sep "," (String " " g2)) by (simpl; exact H2).
    reflexivity.
  - change ("(" +:+ g1 +:+ "," +:+ g2 +:+ ")")
      with (String "(" (g1 +:+ String "," (g2 +:+ ")"))).
    unfold Py.strip_paren.
    change (Py.lstrip_paren (String "(" (g1 +:+ String "," (g2 +:+ ")"))))
      with (Py.lstrip_paren (g1 +:+ String "," (g2 +:+ ")"))).
    rewrite lstrip_paren_keep by done.
    rewrite rstrip_paren_app; rewrite rstrip_paren_comma; [|done].
    rewrite rstrip_paren_close, Hr. rewrite split_append by done.
    by rewrite split_without_sep.
Qed.

(** X17.  When every returned bicluster has at most two columns, the table
    starts empty: no helper is called and no index is looked up. *)
Theorem initial_table_narrow gp uids pm pms cr clc rlc (bs : list Bicluster) :
  Forall (fun b => (length (cols b) <= 2)%nat) bs ->
  initial_table gp uids pm pms cr clc rlc bs = Ok [].
Proof.
  intros Hbs. unfold initial_table.
  assert (Hloop : forall (n : nat) (acc : list bicl_row),
            for_enum
              (fun _ bicluster rows =>
                 if decide (2 < length (cols bicluster))%nat then
                   r ← bicluster_row gp uids pm pms cr clc rlc bicluster;
                   Ok (rows ++ [r])
                 else Ok rows)
              n bs acc = Ok acc); [|apply Hloop].
  induction Hbs as [|b bs Hb _ IH]; intros n acc; simpl; [done|].
  rewrite decide_False by lia. simpl. apply IH.
Qed.

(** X18.  Neither analysis reads the result of the other: storing a value
    under ["instant_biclustering"] does not change the table of
    [analyse_fsm], and storing one under ["instant_fsm"] changes neither
    the extraction nor the table of [bicluster_instant]. *)
Theorem analyses_independent (a : AnnData) (v : uns_value) (fuel : nat)
    (top_k n_vertices : Z) (distance_threshold alpha : float)
    (num_biclusters randomized_searches : Z) (scale_data : bool)
    (cell_threshold threads : Z) :
  analyse_fsm_table (set_uns "instant_biclustering" v a) top_k n_vertices
    distance_threshold alpha
  = analyse_fsm_table a top_k n_vertices distance_threshold alpha /\
  extract_pvalues (set_uns "instant_fsm" v a) distance_threshold alpha
  = extract_pvalues a distance_threshold alpha /\
  bicluster_table fuel (set_uns "instant_fsm" v a) distance_threshold
    num_biclusters randomized_searches scale_data alpha cell_threshold threads
  = bicluster_table fuel a distance_threshold num_biclusters
      randomized_searches scale_data alpha cell_threshold threads.
Proof.
  destruct (result_keys_apart n_vertices distance_threshold
              "instant_biclustering") as (K1 & K2 & K3 & _); [by right|].
  destruct (result_keys_apart n_vertices distance_threshold "instant_fsm")
    as (_ & J2 & J3 & J4); [by left|].
  assert (Hex : extract_pvalues (set_uns "instant_fsm" v a)
                  distance_threshold alpha
                = extract_pvalues a distance_threshold alpha).
  { unfold extract_pvalues, require_cpb_results.
    rewrite !uns_get_set_uns by done. simpl.
    by rewrite lookup_insert_ne. }
  split; [by apply analyse_fsm_table_set_uns|]. split; [done|].
  unfold bicluster_table. rewrite Hex. reflexivity.
Qed.

End PairNames.

Lemma format_pair_roundtrip_witness :
  format_pair ("Actb" +:+ ", " +:+ "Gapdh")
  = Ok ("(" +:+ "Actb" +:+ "," +:+ "Gapdh" +:+ ")") /\
  Py.split "," (Py.strip_paren ("(" +:+ "Actb" +:+ "," +:+ "Gapdh" +:+ ")"))
  = ["Actb"; "Gapdh"].
Proof.
  apply (format_pair_roundtrip "Actb" "Gapdh"); reflexivity.
Defined.

(** Without the blank after the comma the first character of the second
    gene is lost. *)
Example format_pair_without_blank : format_pair "Actb,Gapdh" = Ok "(Actb,apdh)".
Proof. reflexivity. Qed.

Lemma uid_count_of_cells_witness :
  uid_count Fixture.first_row = Z.of_nat (ncells Fixture.first_row).
Proof.
  apply (uid_count_of_cells (RT := Fixture.runtime)
           (BL := Fixture.bicluster_lib)
           ["(A,B)"; "(A,C)"; "(B,C)"] ["c1"; "c2"; "c3"]
           Fixture.cell_b Fixture.cell_b [1; 2; 3]%nat [] []
           {| rows := [0; 1]%nat; cols := [0; 1; 2]%nat;
              score := Fixture.f_two |}).
  - vm_compute. reflexivity.
  - repeat constructor.
  - vm_compute. discriminate.
Defined.

Lemma initial_table_narrow_witness :
  initial_table (RT := Fixture.runtime) (BL := Fixture.bicluster_lib)
    [] [] [] [] [] [] []
    [ {| rows := [0]%nat; cols := [0; 7]%nat; score := fone |} ] = Ok [].
Proof.
  apply (initial_table_narrow (RT := Fixture.runtime)
           (BL := Fixture.bicluster_lib)).
  repeat constructor.
Defined.

(** ** run_instant: a load that fails *)

Section RunInstantLoad.
Context `{IL : InstantLib}.

(** X19.  With no file name given, the file that the external object is
    asked to load holds the object as it was passed in; when that load
    raises, [run_instant] raises the same exception and the temporary file
    stays on disk, with the object in it. *)
Theorem run_instant_load_failure (adata_st : nat) (d : float)
    (threads nv : Z) (a_cpb a_fsm : float) (remove_file sliced : bool)
    (draw : Z) (w : world) (a : AnnData) (e : exn) :
  heap w !! adata_st = Some a ->
  load_preprocessed_data (Instant_init d threads) (temp_name draw)
    (<[temp_name draw := a]> (files w)) = Raise e ->
  run_instant adata_st d threads nv a_cpb a_fsm None remove_file sliced draw w
  = (Raise e,
     {| heap := heap w;
        files := <[temp_name draw := a]> (files w);
        log := log w ++ [ EvWriteH5ad (temp_name draw);
                          EvLoadPreprocessed (temp_name draw) ] |}).
Proof.
  intros Ha Hload.
  unfold run_instant, run_instant_tests, get_obj, deref, write_h5ad, call_lib,
    mbind, M_bind, mret, M_ret.
  rewrite Ha. cbn [from_option]. cbn [files heap log emit with_files].
  rewrite Hload. cbn [mbind outcome_bind obind].
  unfold emit, with_files. cbn [heap files log].
  by rewrite <- List.app_assoc.
Qed.

End RunInstantLoad.

Lemma run_instant_load_failure_witness :
  run_instant (IL := Fixture.failing_instant) 0%nat Fixture.f_two 4 3
    Fixture.f_1e3 Fixture.f_1e3 None true true 42
    (Fixture.world_of Fixture.adata_fresh)
  = (Raise (LibraryError "load"),
     {| heap := heap (Fixture.world_of Fixture.adata_fresh);
        files := <[temp_name 42 := Fixture.adata_fresh]>
                   (files (Fixture.world_of Fixture.adata_fresh));
        log := log (Fixture.world_of Fixture.adata_fresh)
               ++ [ EvWriteH5ad (temp_name 42);
                    EvLoadPreprocessed (temp_name 42) ] |}).
Proof.
  apply (run_instant_load_failure (IL := Fixture.failing_instant) 0%nat
           Fixture.f_two 4 3 Fixture.f_1e3 Fixture.f_1e3 true true 42
           (Fixture.world_of Fixture.adata_fresh) Fixture.adata_fresh
           (LibraryError "load")).
  - reflexivity.
  - reflexivity.
Defined.
